(** * Tiktok.py: the yearly TikTok series simulator, embedded and verified

    The development follows [src/Tiktok.py].  Python floats are IEEE 754
    binary64 numbers; they are modelled by Rocq's primitive floats, which
    are the same numbers with the same round-to-nearest-even operations, so
    that every cell of a simulated table is the value Python computes.

    Conventions of the embedding:
    - a date of the [pandas] date range is represented by its calendar
      year, the only attribute the simulator ever reads ([date.year]);
    - the integer literals of the configuration table are written as the
      floats Python coerces them to in every expression they occur in
      (all of them are below 2^53, hence exactly representable);
    - Python exceptions are values of [exc], and every function that can
      raise returns in the error monad [result];
    - a [DataFrame] is the list of its rows, indexed by position, which is
      also the label [iterrows] and [df.loc] use (a [RangeIndex]).

    Plan: the Python operations the script relies on; the table; the class
    [TikTokCountryAnalyzer], method by method; the value of each stage for
    one year in closed form; the proofs that the methods compute these
    values without raising; the claims. *)

From Stdlib Require Import Floats ZArith Uint63.
From stdpp Require Import base option list strings gmap fin_maps.

Set Warnings "-inexact-float".

(** ** Python semantics used by the script *)

Inductive exc : Type :=
  | ZeroDivisionError
  | IndexError
  | KeyError
  | ValueError.

Inductive result (A : Type) : Type :=
  | Ok (a : A)
  | Raise (e : exc).
Arguments Ok {A} a.
Arguments Raise {A} e.

#[global] Instance result_ret : MRet result := fun A a => Ok a.
#[global] Instance result_bind : MBind result := fun A B f m =>
  match m with
  | Ok a => f a
  | Raise e => Raise e
  end.

(** [l[0]]: the first element, [IndexError] on the empty list. *)
Definition getitem0 {A} (l : list A) : result A :=
  match l with
  | x :: _ => Ok x
  | [] => Raise IndexError
  end.

(** [d[k]] on a dictionary: [KeyError] when the key is absent. *)
Definition dict_getitem {V} (d : gmap string V) (k : string) : result V :=
  match d !! k with
  | Some v => Ok v
  | None => Raise KeyError
  end.

(** [d.get(k, dflt)]. *)
Definition dict_get {V} (d : gmap string V) (k : string) (dflt : V) : V :=
  default dflt (d !! k).

(** [x in l] on a list of strings. *)
Definition py_in (x : string) (l : list string) : bool :=
  bool_decide (x ∈ l).

(** [a == b] on strings. *)
Definition str_eq (a b : string) : bool := bool_decide (a = b).

(** The coercion of a loop index to a float in [growth_rate * i]. *)
Definition float_of_index (i : nat) : float :=
  PrimFloat.of_uint63 (Uint63.of_Z (Z.of_nat i)).

(** [min(a, b)]: Python keeps the first argument unless the second is
    strictly smaller. *)
Definition py_min (a b : float) : float :=
  if PrimFloat.ltb b a then b else a.

(** [a / b] on floats: raises when the divisor is zero (of either sign). *)
Definition py_truediv (a b : float) : result float :=
  if PrimFloat.eqb b 0%float then Raise ZeroDivisionError
  else Ok (PrimFloat.div a b).

(** [out = []; for i, x in enumerate(l): out.append(body(i, x)); return out],
    with [i] starting from [start]. *)
Fixpoint for_enumerate_from {A B} (body : nat → A → result B)
    (start : nat) (l : list A) : result (list B) :=
  match l with
  | [] => Ok []
  | x :: l' =>
      y ← body start x;
      ys ← for_enumerate_from body (S start) l';
      Ok (y :: ys)
  end.

Definition for_enumerate {A B} (body : nat → A → result B)
    (l : list A) : result (list B) :=
  for_enumerate_from body 0 l.

(** [pd.date_range(start=f'{s}-01-01', end=f'{e}-12-31', freq='Y')]: the
    year ends from [s] to [e], one date a year.  This is what [pandas]
    returns for four-digit years within the bounds of its timestamps, as
    are the years 2016 and 2025 that [__init__] sets; outside these bounds
    [pandas] raises or reads the text as another date, which is not
    represented here. *)
Definition date_range (s e : Z) : list Z := seqZ s (e - s + 1).

(** [l[i]] on a list: a negative index counts from the end; [IndexError]
    outside the list. *)
Definition list_getitem {A} (l : list A) (i : Z) : result A :=
  let j := if (i <? 0)%Z then (Z.of_nat (length l) + i)%Z else i in
  if (j <? 0)%Z then Raise IndexError
  else match l !! Z.to_nat j with
       | Some x => Ok x
       | None => Raise IndexError
       end.

(** ** The table

    One row of the [DataFrame]; the fields are its columns, in the order
    in which [generate_tiktok_data] fills [data]. *)

Record Row : Type := mkRow {
  Year : Z;
  Population : float;
  TikTok_Users : float;
  Active_Users : float;
  Time_Spent_Per_User : float;
  Videos_Uploaded : float;
  Likes_Count : float;
  Shares_Count : float;
  Comments_Count : float;
  Ad_Revenue : float;
  Creator_Earnings : float;
  E_Commerce_Revenue : float;
  Engagement_Rate : float;
  User_Growth_Rate : float;
  Virality_Score : float;
  Users_Under_25 : float;
  Users_25_34 : float;
  Users_Over_35 : float
}.

(** The float columns, as the names [df.loc[i, name]] can address. *)
Inductive column : Type :=
  | cPopulation | cTikTok_Users | cActive_Users | cTime_Spent_Per_User
  | cVideos_Uploaded | cLikes_Count | cShares_Count | cComments_Count
  | cAd_Revenue | cCreator_Earnings | cE_Commerce_Revenue
  | cEngagement_Rate | cUser_Growth_Rate | cVirality_Score
  | cUsers_Under_25 | cUsers_25_34 | cUsers_Over_35.

Definition cell (c : column) (r : Row) : float :=
  match c with
  | cPopulation => Population r
  | cTikTok_Users => TikTok_Users r
  | cActive_Users => Active_Users r
  | cTime_Spent_Per_User => Time_Spent_Per_User r
  | cVideos_Uploaded => Videos_Uploaded r
  | cLikes_Count => Likes_Count r
  | cShares_Count => Shares_Count r
  | cComments_Count => Comments_Count r
  | cAd_Revenue => Ad_Revenue r
  | cCreator_Earnings => Creator_Earnings r
  | cE_Commerce_Revenue => E_Commerce_Revenue r
  | cEngagement_Rate => Engagement_Rate r
  | cUser_Growth_Rate => User_Growth_Rate r
  | cVirality_Score => Virality_Score r
  | cUsers_Under_25 => Users_Under_25 r
  | cUsers_25_34 => Users_25_34 r
  | cUsers_Over_35 => Users_Over_35 r
  end.

Definition set_cell (c : column) (v : float) (r : Row) : Row :=
  let '(mkRow y po us ac ti vi li sh co ad cr ec en gr vr u1 u2 u3) := r in
  match c with
  | cPopulation => mkRow y v us ac ti vi li sh co ad cr ec en gr vr u1 u2 u3
  | cTikTok_Users => mkRow y po v ac ti vi li sh co ad cr ec en gr vr u1 u2 u3
  | cActive_Users => mkRow y po us v ti vi li sh co ad cr ec en gr vr u1 u2 u3
  | cTime_Spent_Per_User =>
      mkRow y po us ac v vi li sh co ad cr ec en gr vr u1 u2 u3
  | cVideos_Uploaded => mkRow y po us ac ti v li sh co ad cr ec en gr vr u1 u2 u3
  | cLikes_Count => mkRow y po us ac ti vi v sh co ad cr ec en gr vr u1 u2 u3
  | cShares_Count => mkRow y po us ac ti vi li v co ad cr ec en gr vr u1 u2 u3
  | cComments_Count => mkRow y po us ac ti vi li sh v ad cr ec en gr vr u1 u2 u3
  | cAd_Revenue => mkRow y po us ac ti vi li sh co v cr ec en gr vr u1 u2 u3
  | cCreator_Earnings => mkRow y po us ac ti vi li sh co ad v ec en gr vr u1 u2 u3
  | cE_Commerce_Revenue =>
      mkRow y po us ac ti vi li sh co ad cr v en gr vr u1 u2 u3
  | cEngagement_Rate => mkRow y po us ac ti vi li sh co ad cr ec v gr vr u1 u2 u3
  | cUser_Growth_Rate => mkRow y po us ac ti vi li sh co ad cr ec en v vr u1 u2 u3
  | cVirality_Score => mkRow y po us ac ti vi li sh co ad cr ec en gr v u1 u2 u3
  | cUsers_Under_25 => mkRow y po us ac ti vi li sh co ad cr ec en gr vr v u2 u3
  | cUsers_25_34 => mkRow y po us ac ti vi li sh co ad cr ec en gr vr u1 v u3
  | cUsers_Over_35 => mkRow y po us ac ti vi li sh co ad cr ec en gr vr u1 u2 v
  end.

Abbreviation DataFrame := (list Row).

(** [df.loc[i, c] *= k]: reads the cell, [KeyError] when the label [i] is
    not in the index, and writes the product back in place. *)
Definition loc_imul (df : DataFrame) (i : nat) (c : column) (k : float)
    : result DataFrame :=
  match df !! i with
  | Some r => Ok (<[i := set_cell c (PrimFloat.mul (cell c r) k) r]> df)
  | None => Raise KeyError
  end.

(** [row['Year']] of the row labelled [i]. *)
Definition loc_year (df : DataFrame) (i : nat) : result Z :=
  match df !! i with
  | Some r => Ok (Year r)
  | None => Raise KeyError
  end.

(** [pd.DataFrame(data)] on a dictionary of lists: one row per position;
    [ValueError] unless all the lists have the same length. *)
Definition make_DataFrame (years : list Z)
    (po us ac ti vi li sh co ad cr ec en gr vr u1 u2 u3 : list float)
    : result DataFrame :=
  if forallb (λ c : list float, Nat.eqb (length c) (length years))
       [po; us; ac; ti; vi; li; sh; co; ad; cr; ec; en; gr; vr; u1; u2; u3]
  then
    Ok (imap (λ k y,
          let at_k (c : list float) := nth k c 0%float in
          mkRow y (at_k po) (at_k us) (at_k ac) (at_k ti) (at_k vi) (at_k li)
                (at_k sh) (at_k co) (at_k ad) (at_k cr) (at_k ec) (at_k en)
                (at_k gr) (at_k vr) (at_k u1) (at_k u2) (at_k u3)) years)
  else Raise ValueError.

(** One [ax.plot(x, y, label=...)]: the line it adds to a panel.  A panel
    is the list of its lines, in the order in which they were drawn. *)
Record Line : Type := mkLine {
  label : string;
  xdata : list Z;
  ydata : list float
}.

(** ** class TikTokCountryAnalyzer *)

Module TikTokCountryAnalyzer.

Local Open Scope float_scope.

(** One entry of [configs]. *)
Record Config : Type := mkConfig {
  population_base : float;
  tiktok_users_base : float;
  market_type : string;
  specialties : list string
}.

(** The attributes of an instance that the simulator reads. *)
Record t : Type := mkSelf {
  country : string;
  start_year : Z;
  end_year : Z;
  config : Config
}.

Definition default_config : Config :=
  mkConfig 50000000 10000000 "emerging" ["entertainment"; "music"; "comedy"].

(** The literal of [configs] in [_get_country_config], entry by entry. *)
Definition configs_items : list (string * Config) :=
  [ ("United States",
     mkConfig 331000000 100000000 "mature"
       ["entertainment"; "influencers"; "business"; "ads"; "music"]);
    ("China",
     mkConfig 1400000000 600000000 "domestic"
       ["e-commerce"; "live-streaming"; "education"; "government"]);
    ("India",
     mkConfig 1380000000 200000000 "emerging"
       ["entertainment"; "music"; "dance"; "regional_content"]);
    ("Brazil",
     mkConfig 213000000 82000000 "growing"
       ["music"; "dance"; "comedy"; "social_causes"]);
    ("Indonesia",
     mkConfig 274000000 99000000 "growing"
       ["islamic_content"; "comedy"; "local_business"; "education"]);
    ("Russia",
     mkConfig 144000000 50000000 "regulated"
       ["politics"; "comedy"; "challenges"; "music"]);
    ("Mexico",
     mkConfig 128000000 57500000 "growing"
       ["music"; "comedy"; "beauty"; "family_content"]);
    ("Vietnam",
     mkConfig 97300000 50000000 "booming"
       ["music"; "dance"; "comedy"; "educational"]);
    ("Philippines",
     mkConfig 110000000 43500000 "booming"
       ["dance"; "comedy"; "family_content"; "challenges"]);
    ("Thailand",
     mkConfig 70000000 40000000 "mature"
       ["beauty"; "comedy"; "food"; "music"]);
    ("United Kingdom",
     mkConfig 67000000 23000000 "mature"
       ["comedy"; "politics"; "business"; "education"]);
    ("France",
     mkConfig 68000000 24000000 "mature"
       ["humor"; "politics"; "culture"; "fashion"]);
    ("Germany",
     mkConfig 83000000 22000000 "growing"
       ["comedy"; "education"; "politics"; "business"]);
    ("Japan",
     mkConfig 126000000 17000000 "emerging"
       ["anime"; "music"; "beauty"; "comedy"]);
    ("South Korea",
     mkConfig 52000000 15000000 "growing"
       ["k-pop"; "beauty"; "fashion"; "dance"]);
    ("default", default_config) ].

Definition configs : gmap string Config := list_to_map configs_items.

(** [return configs.get(self.country, configs["default"])]: the fallback
    argument is evaluated first, and would raise if the key were absent. *)
Definition _get_country_config (country : string) : result Config :=
  dflt ← dict_getitem configs "default";
  Ok (dict_get configs country dflt).

(** [__init__]. *)
Definition __init__ (country_name : string) : result t :=
  cfg ← _get_country_config country_name;
  Ok (mkSelf country_name 2016 2025 cfg).

Section Simulation.

Variable self : t.

Definition _simulate_population (dates : list Z) : result (list float) :=
  let base_population := population_base (config self) in
  for_enumerate (λ i date,
    let growth_rate :=
      if str_eq (market_type (config self)) "mature" then 0.004
      else if str_eq (market_type (config self)) "booming" then 0.012
      else 0.008 in
    let growth := 1 + growth_rate * float_of_index i in
    Ok (base_population * growth)) dates.

Definition _simulate_tiktok_users (dates : list Z) : result (list float) :=
  let base_users := tiktok_users_base (config self) in
  for_enumerate (λ i date,
    let year := date in
    let growth_rate :=
      if str_eq (market_type (config self)) "mature" then
        if (year <? 2020)%Z then 0.35 else 0.08
      else if str_eq (market_type (config self)) "booming" then 0.25
      else if str_eq (market_type (config self)) "emerging" then 0.40
      else 0.15 in
    let growth := 1 + growth_rate * float_of_index i in
    let max_percentage :=
      if negb (str_eq (market_type (config self)) "domestic")
      then 0.65 else 0.45 in
    let max_users := population_base (config self) * max_percentage in
    Ok (py_min (base_users * growth) max_users)) dates.

Definition _simulate_active_users (dates : list Z) : result (list float) :=
  for_enumerate (λ i date,
    let active_rate :=
      if str_eq (market_type (config self)) "mature" then 0.75
      else if str_eq (market_type (config self)) "booming" then 0.85
      else 0.70 in
    users ← _simulate_tiktok_users [date];
    u ← getitem0 users;
    Ok (u * active_rate)) dates.

Definition _simulate_time_spent (dates : list Z) : result (list float) :=
  for_enumerate (λ i date,
    let year := date in
    let base_time := 45 in
    let time :=
      if (year <? 2018)%Z then base_time * 0.7
      else if (year <? 2020)%Z then base_time * 0.9
      else if (year <? 2022)%Z then base_time * 1.1
      else base_time * 1.2 in
    let time :=
      if str_eq (market_type (config self)) "booming" then time * 1.15
      else if str_eq (market_type (config self)) "emerging" then time * 1.25
      else time in
    Ok time) dates.

Definition _simulate_videos_uploaded (dates : list Z) : result (list float) :=
  for_enumerate (λ i date,
    let year := date in
    let videos_per_user :=
      if (year <? 2018)%Z then 0.8
      else if (year <? 2020)%Z then 1.2
      else if (year <? 2022)%Z then 1.5
      else 1.8 in
    let videos_per_user :=
      if str_eq (market_type (config self)) "booming"
      then videos_per_user * 1.3
      else if py_in "comedy" (specialties (config self))
      then videos_per_user * 1.2
      else videos_per_user in
    active ← _simulate_active_users [date];
    a ← getitem0 active;
    Ok (a * videos_per_user * 365)) dates.

Definition _simulate_likes_count (dates : list Z) : result (list float) :=
  for_enumerate (λ i date,
    let year := date in
    let likes_per_video :=
      if (year <? 2018)%Z then 150
      else if (year <? 2020)%Z then 250
      else if (year <? 2022)%Z then 350
      else 400 in
    videos ← _simulate_videos_uploaded [date];
    v ← getitem0 videos;
    Ok (v * likes_per_video)) dates.

Definition _simulate_shares_count (dates : list Z) : result (list float) :=
  for_enumerate (λ i date,
    let share_ratio := 0.08 in
    likes ← _simulate_likes_count [date];
    l ← getitem0 likes;
    Ok (l * share_ratio)) dates.

Definition _simulate_comments_count (dates : list Z) : result (list float) :=
  for_enumerate (λ i date,
    let comment_ratio := 0.05 in
    likes ← _simulate_likes_count [date];
    l ← getitem0 likes;
    Ok (l * comment_ratio)) dates.

Definition _simulate_ad_revenue (dates : list Z) : result (list float) :=
  for_enumerate (λ i date,
    let year := date in
    let revenue_per_user :=
      if (year <? 2018)%Z then 2.5
      else if (year <? 2020)%Z then 5.0
      else if (year <? 2022)%Z then 8.0
      else 12.0 in
    let revenue_per_user :=
      if str_eq (market_type (config self)) "mature"
      then revenue_per_user * 1.5
      else if str_eq (market_type (config self)) "regulated"
      then revenue_per_user * 0.7
      else revenue_per_user in
    active ← _simulate_active_users [date];
    a ← getitem0 active;
    Ok (a * revenue_per_user)) dates.

Definition _simulate_creator_earnings (dates : list Z) : result (list float) :=
  for_enumerate (λ i date,
    let creator_ratio := 0.25 in
    revenue ← _simulate_ad_revenue [date];
    r ← getitem0 revenue;
    Ok (r * creator_ratio)) dates.

Definition _simulate_ecommerce_revenue (dates : list Z) : result (list float) :=
  for_enumerate (λ i date,
    let year := date in
    ecommerce_revenue ←
      (if (year <? 2019)%Z then Ok 0
       else if (year <? 2021)%Z then
         revenue ← _simulate_ad_revenue [date];
         r ← getitem0 revenue;
         Ok (r * 0.1)
       else if (year <? 2023)%Z then
         revenue ← _simulate_ad_revenue [date];
         r ← getitem0 revenue;
         Ok (r * 0.2)
       else
         revenue ← _simulate_ad_revenue [date];
         r ← getitem0 revenue;
         Ok (r * 0.3));
    let ecommerce_revenue :=
      if py_in "e-commerce" (specialties (config self))
      then ecommerce_revenue * 1.5
      else ecommerce_revenue in
    Ok ecommerce_revenue) dates.

Definition _simulate_engagement_rate (dates : list Z) : result (list float) :=
  for_enumerate (λ i date,
    let year := date in
    let rate :=
      if (year <? 2018)%Z then 0.12
      else if (year <? 2020)%Z then 0.16
      else if (year <? 2022)%Z then 0.18
      else 0.20 in
    let rate :=
      if str_eq (market_type (config self)) "booming" then rate * 1.15
      else rate in
    Ok rate) dates.

(** The loop of [_simulate_user_growth_rate], with the loop-carried
    variable [previous_users] as an argument. *)
Fixpoint user_growth_rate_loop (previous_users : float) (dates : list Z)
    : result (list float) :=
  match dates with
  | [] => Ok []
  | date :: dates' =>
      users ← _simulate_tiktok_users [date];
      current_users ← getitem0 users;
      growth_rate ←
        (if 0 <? previous_users
         then py_truediv (current_users - previous_users) previous_users
         else Ok 0);
      growth_rates ← user_growth_rate_loop current_users dates';
      Ok (growth_rate :: growth_rates)
  end.

Definition _simulate_user_growth_rate (dates : list Z) : result (list float) :=
  let previous_users := tiktok_users_base (config self) in
  user_growth_rate_loop previous_users dates.

Definition _simulate_virality_score (dates : list Z) : result (list float) :=
  for_enumerate (λ i date,
    let year := date in
    let score :=
      if (year <? 2018)%Z then 1.2
      else if (year <? 2020)%Z then 1.5
      else if (year <? 2022)%Z then 1.8
      else 2.0 in
    let score :=
      if py_in "music" (specialties (config self))
         || py_in "dance" (specialties (config self))
      then score * 1.2
      else score in
    Ok score) dates.

Definition _simulate_young_users (dates : list Z) : result (list float) :=
  for_enumerate (λ i date,
    let young_ratio :=
      if str_eq (market_type (config self)) "mature" then 0.45 else 0.60 in
    users ← _simulate_tiktok_users [date];
    u ← getitem0 users;
    Ok (u * young_ratio)) dates.

Definition _simulate_adult_users (dates : list Z) : result (list float) :=
  for_enumerate (λ i date,
    let adult_ratio := 0.30 in
    users ← _simulate_tiktok_users [date];
    u ← getitem0 users;
    Ok (u * adult_ratio)) dates.

Definition _simulate_older_users (dates : list Z) : result (list float) :=
  for_enumerate (λ i date,
    let young_ratio :=
      if str_eq (market_type (config self)) "mature" then 0.45 else 0.60 in
    let adult_ratio := 0.30 in
    let older_ratio := 1 - young_ratio - adult_ratio in
    users ← _simulate_tiktok_users [date];
    u ← getitem0 users;
    Ok (u * older_ratio)) dates.

(** [if cond: df.loc[i, c] *= k]. *)
Definition imul_when (cond : bool) (df : DataFrame) (i : nat) (c : column)
    (k : float) : result DataFrame :=
  if cond then loc_imul df i c k else Ok df.

(** The body of the loop of [_add_country_trends] for the row labelled
    [i]; [df] is the frame as the earlier iterations left it. *)
Definition country_trends_step (df : DataFrame) (i : nat) : result DataFrame :=
  year ← loc_year df i;
  df ← imul_when ((2016 <=? year)%Z && (year <=? 2018)%Z)
         df i cUser_Growth_Rate 1.2;
  df ← imul_when ((2019 <=? year)%Z && (year <=? 2020)%Z)
         df i cAd_Revenue 1.3;
  df ← imul_when ((2020 <=? year)%Z && (year <=? 2021)%Z)
         df i cTime_Spent_Per_User 1.25;
  df ← imul_when ((2020 <=? year)%Z && (year <=? 2021)%Z)
         df i cActive_Users 1.15;
  df ← imul_when ((2021 <=? year)%Z && (year <=? 2023)%Z
                   && py_in "e-commerce" (specialties (config self)))
         df i cE_Commerce_Revenue 1.4;
  imul_when ((2023 <=? year)%Z && str_eq (market_type (config self)) "mature")
    df i cUser_Growth_Rate 0.7.

(** [for i, row in df.iterrows(): ...], the labels being [0 .. len(df)-1];
    the frame is updated in place and threaded through the iterations. *)
Fixpoint iterrows_fold (labels : list nat) (df : DataFrame) : result DataFrame :=
  match labels with
  | [] => Ok df
  | i :: labels' =>
      df' ← country_trends_step df i;
      iterrows_fold labels' df'
  end.

Definition _add_country_trends (df : DataFrame) : result DataFrame :=
  iterrows_fold (seq 0 (length df)) df.

(** [generate_tiktok_data] up to [df = pd.DataFrame(data)]: the table
    before the trend adjustments. *)
Definition simulated_table : result DataFrame :=
  let dates := date_range (start_year self) (end_year self) in
  let years := dates in
  population ← _simulate_population dates;
  tiktok_users ← _simulate_tiktok_users dates;
  active_users ← _simulate_active_users dates;
  time_spent ← _simulate_time_spent dates;
  videos ← _simulate_videos_uploaded dates;
  likes ← _simulate_likes_count dates;
  shares ← _simulate_shares_count dates;
  comments ← _simulate_comments_count dates;
  ad_revenue ← _simulate_ad_revenue dates;
  creator_earnings ← _simulate_creator_earnings dates;
  ecommerce ← _simulate_ecommerce_revenue dates;
  engagement ← _simulate_engagement_rate dates;
  growth_rates ← _simulate_user_growth_rate dates;
  virality ← _simulate_virality_score dates;
  young ← _simulate_young_users dates;
  adult ← _simulate_adult_users dates;
  older ← _simulate_older_users dates;
  make_DataFrame years population tiktok_users active_users time_spent
    videos likes shares comments ad_revenue creator_earnings ecommerce
    engagement growth_rates virality young adult older.

Definition generate_tiktok_data : result DataFrame :=
  df ← simulated_table;
  _add_country_trends df.

End Simulation.

(** [analyzer = TikTokCountryAnalyzer(pays); analyzer.generate_tiktok_data()],
    as [main] runs it for the selected country. *)
Definition tiktok_data (pays_selectionne : string) : result DataFrame :=
  analyzer ← __init__ pays_selectionne;
  generate_tiktok_data analyzer.

(** The literal of [configs] in [_get_country_config_for_country]: each
    value is a dictionary with the single key "tiktok_users_base". *)
Definition configs_for_country_items : list (string * gmap string float) :=
  [ ("United States", {["tiktok_users_base" := 100000000]});
    ("China", {["tiktok_users_base" := 600000000]});
    ("India", {["tiktok_users_base" := 200000000]});
    ("Brazil", {["tiktok_users_base" := 82000000]});
    ("Indonesia", {["tiktok_users_base" := 99000000]}) ].

Definition configs_for_country : gmap string (gmap string float) :=
  list_to_map configs_for_country_items.

Definition _get_country_config_for_country (country : string)
    : gmap string float :=
  dict_get configs_for_country country {["tiktok_users_base" := 50000000]}.

Definition major_countries : list string :=
  ["United States"; "China"; "India"; "Brazil"; "Indonesia"].

(** The loop of [_plot_international_comparison] over [major_countries];
    [ax] holds the lines drawn so far. *)
Fixpoint comparison_loop (self : t) (years : list Z) (todo : list string)
    (ax : list Line) : result (list Line) :=
  match todo with
  | [] => Ok ax
  | other :: todo' =>
      if str_eq other (country self)
      then comparison_loop self years todo' ax
      else
        let country_config := _get_country_config_for_country other in
        country_users ←
          for_enumerate (λ i year,
            base ← dict_getitem country_config "tiktok_users_base";
            Ok (base * (1 + 0.2 * float_of_index i))) years;
        comparison_loop self years todo'
          (ax ++ [mkLine other years country_users])
  end.

(** [_plot_international_comparison], as the lines it adds to the panel
    [ax]; the title, the legend and the grid are not represented. *)
Definition _plot_international_comparison (self : t) (df : DataFrame)
    (ax : list Line) : result (list Line) :=
  let years := Year <$> df in
  ax ← comparison_loop self years major_countries ax;
  Ok (ax ++ [mkLine (country self) years (TikTok_Users <$> df)]).

End TikTokCountryAnalyzer.

Import TikTokCountryAnalyzer.

(** ** main

    The selection of the country and the export of its table. *)

Definition countries : list string :=
  ["United States"; "China"; "India"; "Brazil"; "Indonesia";
   "Russia"; "Mexico"; "Vietnam"; "Philippines"; "Thailand";
   "United Kingdom"; "France"; "Germany"; "Japan"; "South Korea"].

(** [int(input(...))]: the text typed is represented by the integer it
    denotes, if any; [ValueError] otherwise. *)
Definition int_of_input (typed : option Z) : result Z :=
  match typed with
  | Some n => Ok n
  | None => Raise ValueError
  end.

(** The [try] / [except (ValueError, IndexError)] of [main]. *)
Definition pays_selectionne (typed : option Z) : result string :=
  match
    (choix ← int_of_input typed;
     if (choix <? 1)%Z || (Z.of_nat (length countries) <? choix)%Z
     then Raise ValueError
     else list_getitem countries (choix - 1))
  with
  | Ok pays => Ok pays
  | Raise ValueError | Raise IndexError => Ok "United States"%string
  | Raise e => Raise e
  end.

(** [main] up to [tiktok_data.to_csv(output_file, index=False)]: the name
    of the file and the table written to it. *)
Definition main_export (typed : option Z) : result (string * DataFrame) :=
  pays ← pays_selectionne typed;
  data ← tiktok_data pays;
  Ok ((pays ++ "_tiktok_data_2016_2025.csv")%string, data).

(** ** What each stage computes for one year

    The value every stage appends for the date of calendar year [year] at
    position [i] of the list it was called on.  The stages that re-derive
    an earlier series call it on the one-element list [[date]], and so read
    it at position 0. *)

Section PerYear.

Local Open Scope float_scope.

Variable cfg : Config.

Definition population_growth_rate : float :=
  if str_eq (market_type cfg) "mature" then 0.004
  else if str_eq (market_type cfg) "booming" then 0.012
  else 0.008.

Definition population_at (i : nat) : float :=
  population_base cfg
  * (1 + population_growth_rate * float_of_index i).

Definition users_growth_rate (year : Z) : float :=
  if str_eq (market_type cfg) "mature" then
    if (year <? 2020)%Z then 0.35 else 0.08
  else if str_eq (market_type cfg) "booming" then 0.25
  else if str_eq (market_type cfg) "emerging" then 0.40
  else 0.15.

Definition ceiling_fraction : float :=
  if negb (str_eq (market_type cfg) "domestic") then 0.65 else 0.45.

Definition max_users : float :=
  population_base cfg * ceiling_fraction.

Definition users_at (i : nat) (year : Z) : float :=
  py_min (tiktok_users_base cfg
          * (1 + users_growth_rate year * float_of_index i))
         max_users.

Definition active_rate : float :=
  if str_eq (market_type cfg) "mature" then 0.75
  else if str_eq (market_type cfg) "booming" then 0.85
  else 0.70.

Definition active_at (year : Z) : float := users_at 0 year * active_rate.

Definition time_spent_at (year : Z) : float :=
  let time :=
    if (year <? 2018)%Z then 45 * 0.7
    else if (year <? 2020)%Z then 45 * 0.9
    else if (year <? 2022)%Z then 45 * 1.1
    else 45 * 1.2 in
  if str_eq (market_type cfg) "booming" then time * 1.15
  else if str_eq (market_type cfg) "emerging" then time * 1.25
  else time.

Definition videos_per_user_at (year : Z) : float :=
  let videos_per_user :=
    if (year <? 2018)%Z then 0.8
    else if (year <? 2020)%Z then 1.2
    else if (year <? 2022)%Z then 1.5
    else 1.8 in
  if str_eq (market_type cfg) "booming" then videos_per_user * 1.3
  else if py_in "comedy" (specialties cfg)
  then videos_per_user * 1.2
  else videos_per_user.

Definition videos_at (year : Z) : float :=
  active_at year * videos_per_user_at year * 365.

Definition likes_per_video_at (year : Z) : float :=
  if (year <? 2018)%Z then 150
  else if (year <? 2020)%Z then 250
  else if (year <? 2022)%Z then 350
  else 400.

Definition likes_at (year : Z) : float :=
  videos_at year * likes_per_video_at year.

Definition shares_at (year : Z) : float := likes_at year * 0.08.

Definition comments_at (year : Z) : float := likes_at year * 0.05.

Definition revenue_per_user_at (year : Z) : float :=
  let revenue_per_user :=
    if (year <? 2018)%Z then 2.5
    else if (year <? 2020)%Z then 5.0
    else if (year <? 2022)%Z then 8.0
    else 12.0 in
  if str_eq (market_type cfg) "mature" then revenue_per_user * 1.5
  else if str_eq (market_type cfg) "regulated"
  then revenue_per_user * 0.7
  else revenue_per_user.

Definition ad_revenue_at (year : Z) : float :=
  active_at year * revenue_per_user_at year.

Definition creator_earnings_at (year : Z) : float := ad_revenue_at year * 0.25.

Definition ecommerce_at (year : Z) : float :=
  let ecommerce_revenue :=
    if (year <? 2019)%Z then 0
    else if (year <? 2021)%Z then ad_revenue_at year * 0.1
    else if (year <? 2023)%Z then ad_revenue_at year * 0.2
    else ad_revenue_at year * 0.3 in
  if py_in "e-commerce" (specialties cfg)
  then ecommerce_revenue * 1.5
  else ecommerce_revenue.

Definition engagement_at (year : Z) : float :=
  let rate :=
    if (year <? 2018)%Z then 0.12
    else if (year <? 2020)%Z then 0.16
    else if (year <? 2022)%Z then 0.18
    else 0.20 in
  if str_eq (market_type cfg) "booming" then rate * 1.15 else rate.

Definition virality_at (year : Z) : float :=
  let score :=
    if (year <? 2018)%Z then 1.2
    else if (year <? 2020)%Z then 1.5
    else if (year <? 2022)%Z then 1.8
    else 2.0 in
  if py_in "music" (specialties cfg)
     || py_in "dance" (specialties cfg)
  then score * 1.2
  else score.

Definition young_ratio : float :=
  if str_eq (market_type cfg) "mature" then 0.45 else 0.60.

Definition young_at (year : Z) : float := users_at 0 year * young_ratio.

Definition adult_at (year : Z) : float := users_at 0 year * 0.30.

Definition older_at (year : Z) : float :=
  users_at 0 year * (1 - young_ratio - 0.30).

(** The growth rates appended from a given value of [previous_users] on. *)
Fixpoint growth_rates_from (previous_users : float) (dates : list Z)
    : list float :=
  match dates with
  | [] => []
  | date :: dates' =>
      let current_users := users_at 0 date in
      (if 0 <? previous_users
       then (current_users - previous_users) / previous_users
       else 0)
      :: growth_rates_from current_users dates'
  end.

(** The row of position [k] and calendar year [year] before the trend
    adjustments; [growth_rate] is its entry of the growth-rate series. *)
Definition simulated_row (k : nat) (year : Z) (growth_rate : float) : Row :=
  {| Year := year;
     Population := population_at k;
     TikTok_Users := users_at k year;
     Active_Users := active_at year;
     Time_Spent_Per_User := time_spent_at year;
     Videos_Uploaded := videos_at year;
     Likes_Count := likes_at year;
     Shares_Count := shares_at year;
     Comments_Count := comments_at year;
     Ad_Revenue := ad_revenue_at year;
     Creator_Earnings := creator_earnings_at year;
     E_Commerce_Revenue := ecommerce_at year;
     Engagement_Rate := engagement_at year;
     User_Growth_Rate := growth_rate;
     Virality_Score := virality_at year;
     Users_Under_25 := young_at year;
     Users_25_34 := adult_at year;
     Users_Over_35 := older_at year |}.

Definition simulated_rows (dates : list Z) : DataFrame :=
  imap (λ k year,
    simulated_row k year
      (nth k (growth_rates_from (tiktok_users_base cfg) dates) 0))
    dates.

(** The row the loop body leaves at label [i], as the sequence of its six
    guarded in-place products. *)
Definition trends_on_row (r : Row) : Row :=
  let year := Year r in
  let mul (cond : bool) (c : column) (k : float) (r : Row) : Row :=
    if cond then set_cell c (PrimFloat.mul (cell c r) k) r else r in
  let r := mul ((2016 <=? year)%Z && (year <=? 2018)%Z)
             cUser_Growth_Rate 1.2%float r in
  let r := mul ((2019 <=? year)%Z && (year <=? 2020)%Z) cAd_Revenue 1.3%float r in
  let r := mul ((2020 <=? year)%Z && (year <=? 2021)%Z)
             cTime_Spent_Per_User 1.25%float r in
  let r := mul ((2020 <=? year)%Z && (year <=? 2021)%Z)
             cActive_Users 1.15%float r in
  let r := mul ((2021 <=? year)%Z && (year <=? 2023)%Z
                && py_in "e-commerce" (specialties cfg))
             cE_Commerce_Revenue 1.4%float r in
  mul ((2023 <=? year)%Z && str_eq (market_type cfg) "mature")
    cUser_Growth_Rate 0.7%float r.

(** What the trend adjustments make of one row: the windows are those of
    the calendar year of the row. *)
Definition in_window (lo hi year : Z) : bool :=
  (lo <=? year)%Z && (year <=? hi)%Z.

Definition adjusted_growth_rate (r : Row) : float :=
  if in_window 2016 2018 (Year r) then User_Growth_Rate r * 1.2
  else if (2023 <=? Year r)%Z && str_eq (market_type cfg) "mature"
  then User_Growth_Rate r * 0.7
  else User_Growth_Rate r.

Definition adjusted_row (r : Row) : Row :=
  {| Year := Year r;
     Population := Population r;
     TikTok_Users := TikTok_Users r;
     Active_Users :=
       if in_window 2020 2021 (Year r) then Active_Users r * 1.15
       else Active_Users r;
     Time_Spent_Per_User :=
       if in_window 2020 2021 (Year r) then Time_Spent_Per_User r * 1.25
       else Time_Spent_Per_User r;
     Videos_Uploaded := Videos_Uploaded r;
     Likes_Count := Likes_Count r;
     Shares_Count := Shares_Count r;
     Comments_Count := Comments_Count r;
     Ad_Revenue :=
       if in_window 2019 2020 (Year r) then Ad_Revenue r * 1.3
       else Ad_Revenue r;
     Creator_Earnings := Creator_Earnings r;
     E_Commerce_Revenue :=
       if in_window 2021 2023 (Year r)
          && py_in "e-commerce" (specialties cfg)
       then E_Commerce_Revenue r * 1.4
       else E_Commerce_Revenue r;
     Engagement_Rate := Engagement_Rate r;
     User_Growth_Rate := adjusted_growth_rate r;
     Virality_Score := Virality_Score r;
     Users_Under_25 := Users_Under_25 r;
     Users_25_34 := Users_25_34 r;
     Users_Over_35 := Users_Over_35 r |}.

End PerYear.

#[global] Instance column_eq_dec : EqDecision column.
Proof. solve_decision. Defined.

(** The columns the trend adjustments may write to. *)
Definition adjusted_columns : list column :=
  [cUser_Growth_Rate; cAd_Revenue; cTime_Spent_Per_User; cActive_Users;
   cE_Commerce_Revenue].

(** The ceiling of the user base, in the words of the specification:
    the population times 0.45 for a domestic market and times 0.65 for
    every other market type. *)
Definition users_ceiling (cfg : Config) : float :=
  (population_base cfg
   * (if str_eq (market_type cfg) "domestic" then 0.45 else 0.65))%float.

(** The single-date value of the sixteen profiles: position 0 gives the
    base, which is below the ceiling of each of them. *)
Definition base_is_fixpoint (cfg : Config) : Prop :=
  (∀ year, users_at cfg 0 year = tiktok_users_base cfg)
  ∧ (if 0 <? tiktok_users_base cfg
     then (tiktok_users_base cfg - tiktok_users_base cfg) / tiktok_users_base cfg
     else 0)%float = 0%float.

(** A float that is neither a zero, an infinity nor not-a-number. *)
Definition finite_nonzero (x : float) : bool :=
  match Prim2SF x with
  | S754_finite _ _ _ => true
  | _ => false
  end.

(** The stages compare the calendar year with constants between 2016 and
    2024 only: a year behaves as the nearest year of 2015 .. 2024. *)
Definition clamp_year (year : Z) : Z := Z.max 2015 (Z.min year 2024).

(** The columns whose value depends on the calendar year alone. *)
Definition year_columns : list column :=
  [cActive_Users; cTime_Spent_Per_User; cVideos_Uploaded; cLikes_Count;
   cShares_Count; cComments_Count; cAd_Revenue; cCreator_Earnings;
   cE_Commerce_Revenue; cEngagement_Rate; cVirality_Score; cUsers_Under_25;
   cUsers_25_34; cUsers_Over_35].

(** What is evaluated on a profile: its seeds and rates are finite and
    not zero, its ceiling is a number, and so is every year-only cell of
    the final row of each of the years 2015 .. 2024. *)
Definition profile_checks (cfg : Config) : bool :=
  finite_nonzero (population_base cfg)
  && finite_nonzero (tiktok_users_base cfg)
  && finite_nonzero (population_growth_rate cfg)
  && negb (is_nan (max_users cfg))
  && forallb (λ year,
       finite_nonzero (users_growth_rate cfg year)
       && forallb (λ c,
            negb (is_nan
                    (cell c (adjusted_row cfg (simulated_row cfg 0 year 0)))))
            year_columns)
       (seqZ 2015 10).

(** A record of a final table: no cell is not-a-number, the users are at
    most the ceiling, and the growth rate is 0. *)
Definition row_is_sound (cfg : Config) (r : Row) : Prop :=
  (∀ c, is_nan (cell c r) = false)
  ∧ (TikTok_Users r <=? users_ceiling cfg)%float = true
  ∧ User_Growth_Rate r = 0%float.

(** The value of [_simulate_tiktok_users] on a one-element list: position
    0 leaves the base as it is, whatever the date. *)
Definition single_date_users (cfg : Config) : float :=
  py_min (tiktok_users_base cfg * 1)%float (max_users cfg).

(** The sign of a float, on its specification: zeros of either sign,
    positive numbers and plus infinity. *)
Definition SFnonneg (x : spec_float) : bool :=
  match x with
  | S754_zero _ | S754_infinity false | S754_finite false _ _ => true
  | _ => false
  end.

Definition nonneg (x : float) : bool := SFnonneg (Prim2SF x).

Definition finite_positive (x : float) : bool :=
  match Prim2SF x with
  | S754_finite false _ _ => true
  | _ => false
  end.

(** What is evaluated on a profile for the signs: positive seeds and
    rates, a ceiling that is not negative, and year-only cells that are not
    negative in the final row of each of the years 2015 .. 2024. *)
Definition profile_signs (cfg : Config) : bool :=
  finite_positive (population_base cfg)
  && finite_positive (tiktok_users_base cfg)
  && finite_positive (population_growth_rate cfg)
  && nonneg (max_users cfg)
  && forallb (λ year,
       finite_positive (users_growth_rate cfg year)
       && forallb (λ c,
            (0 <=? cell c (adjusted_row cfg (simulated_row cfg 0 year 0)))%float)
            year_columns)
       (seqZ 2015 10).

(** The line drawn for another country: its base, grown by 20 % of the
    base per position. *)
Definition comparison_line (years : list Z) (country : string) : Line :=
  mkLine country years
    (imap (λ i _,
       (default 0 (_get_country_config_for_country country
                     !! "tiktok_users_base")
        * (1 + 0.2 * float_of_index i))%float) years).

(** [q] holds between each element and the next. *)
Fixpoint all_steps {A} (q : A → A → bool) (l : list A) : bool :=
  match l with
  | x :: l' =>
      match l' with
      | y :: _ => q x y && all_steps q l'
      | [] => true
      end
  | [] => true
  end.

(** From one record to the next the users do not decrease, except after
    the record of 2019 of a mature market. *)
Definition users_step (cfg : Config) (r1 r2 : Row) : bool :=
  (TikTok_Users r1 <=? TikTok_Users r2)%float
  || (str_eq (market_type cfg) "mature" && (Year r1 =? 2019)%Z).

Definition population_step (r1 r2 : Row) : bool :=
  (Population r1 <? Population r2)%float.

(** The final rows on the range 2016 .. 2025 that [__init__] sets. *)
Definition main_rows (cfg : Config) : DataFrame :=
  adjusted_row cfg <$> simulated_rows cfg (date_range 2016 2025).


(** ** Loops of the error monad *)

Lemma for_enumerate_from_ok {A B} (body : nat → A → result B)
    (g : nat → A → B) (l : list A) (start : nat) :
  (∀ i x, body i x = Ok (g i x)) →
  for_enumerate_from body start l = Ok (imap (λ k, g (start + k)) l).
Proof.
  intros Hbody. revert start.
  induction l as [|x l IH]; intros start; [done|].
  cbn [for_enumerate_from]. rewrite Hbody, (IH (S start)). cbn.
  rewrite Nat.add_0_r. do 2 f_equal.
  apply imap_ext. intros k y _. cbn. by rewrite Nat.add_succ_r.
Qed.

Lemma for_enumerate_ok {A B} (body : nat → A → result B)
    (g : nat → A → B) (l : list A) :
  (∀ i x, body i x = Ok (g i x)) →
  for_enumerate body l = Ok (imap g l).
Proof.
  intros Hbody. unfold for_enumerate.
  by rewrite (for_enumerate_from_ok body g l 0 Hbody).
Qed.

(** A body that ignores its index yields a plain [map]. *)
Lemma for_enumerate_map {A B} (body : nat → A → result B)
    (g : A → B) (l : list A) :
  (∀ i x, body i x = Ok (g x)) →
  for_enumerate body l = Ok (g <$> l).
Proof.
  intros Hbody. rewrite (for_enumerate_ok body (λ _, g) l Hbody).
  f_equal. apply imap_const.
Qed.

(** ** Two facts of binary64 comparison *)

Lemma float_ltb_irrefl (x : float) : PrimFloat.ltb x x = false.
Proof.
  rewrite FloatAxioms.ltb_spec. unfold SFltb.
  destruct (Prim2SF x) as [s|s| |s m e]; cbn; try done; try (by destruct s).
  change (PosDef.Pos.compare_cont Eq m m) with (Pos.compare m m).
  rewrite Z.compare_refl, Pos.compare_refl. by destruct s.
Qed.

Lemma float_pos_nonzero (x : float) :
  PrimFloat.ltb 0 x = true → PrimFloat.eqb x 0 = false.
Proof.
  rewrite FloatAxioms.ltb_spec, FloatAxioms.eqb_spec.
  change (Prim2SF 0) with (S754_zero false).
  unfold SFltb, SFeqb.
  destruct (Prim2SF x) as [s|s| |s m e]; cbn; try done; by destruct s.
Qed.

(** [min(a, b)] is never strictly above its second argument, whatever the
    floats are (not-a-number included). *)
Lemma py_min_not_above (a b : float) : PrimFloat.ltb b (py_min a b) = false.
Proof.
  unfold py_min. destruct (PrimFloat.ltb b a) eqn:Hlt; [|done].
  apply float_ltb_irrefl.
Qed.

(** The guarded division of the growth-rate stage cannot raise. *)
Lemma guarded_truediv_ok (cur prev : float) :
  (if PrimFloat.ltb 0 prev then py_truediv (cur - prev)%float prev else Ok 0%float)
  = Ok (if PrimFloat.ltb 0 prev then ((cur - prev) / prev)%float else 0%float).
Proof.
  destruct (PrimFloat.ltb 0 prev) eqn:Hpos; [|done].
  unfold py_truediv. by rewrite (float_pos_nonzero _ Hpos).
Qed.

(** ** The stages, one year at a time

    Each stage returns, without raising, the list of its per-year values.
    The stages that call another stage on [[date]] read that stage at
    position 0, whatever the position of the date in the range. *)

Section Stages.

Variable self : t.

Lemma simulate_population_eq (dates : list Z) :
  _simulate_population self dates = Ok (imap (λ i _, population_at (config self) i) dates).
Proof. unfold _simulate_population. by apply for_enumerate_ok. Qed.

Lemma simulate_tiktok_users_eq (dates : list Z) :
  _simulate_tiktok_users self dates = Ok (imap (users_at (config self)) dates).
Proof. unfold _simulate_tiktok_users. by apply for_enumerate_ok. Qed.

Lemma simulate_tiktok_users_single (date : Z) :
  _simulate_tiktok_users self [date] = Ok [users_at (config self) 0 date].
Proof. by rewrite simulate_tiktok_users_eq. Qed.

Lemma simulate_active_users_eq (dates : list Z) :
  _simulate_active_users self dates = Ok (active_at (config self) <$> dates).
Proof.
  unfold _simulate_active_users. apply for_enumerate_map.
  intros i date. by rewrite simulate_tiktok_users_single.
Qed.

Lemma simulate_time_spent_eq (dates : list Z) :
  _simulate_time_spent self dates = Ok (time_spent_at (config self) <$> dates).
Proof. unfold _simulate_time_spent. by apply for_enumerate_map. Qed.

Lemma simulate_videos_uploaded_eq (dates : list Z) :
  _simulate_videos_uploaded self dates = Ok (videos_at (config self) <$> dates).
Proof.
  unfold _simulate_videos_uploaded. apply for_enumerate_map.
  intros i date. by rewrite simulate_active_users_eq.
Qed.

Lemma simulate_likes_count_eq (dates : list Z) :
  _simulate_likes_count self dates = Ok (likes_at (config self) <$> dates).
Proof.
  unfold _simulate_likes_count. apply for_enumerate_map.
  intros i date. by rewrite simulate_videos_uploaded_eq.
Qed.

Lemma simulate_shares_count_eq (dates : list Z) :
  _simulate_shares_count self dates = Ok (shares_at (config self) <$> dates).
Proof.
  unfold _simulate_shares_count. apply for_enumerate_map.
  intros i date. by rewrite simulate_likes_count_eq.
Qed.

Lemma simulate_comments_count_eq (dates : list Z) :
  _simulate_comments_count self dates = Ok (comments_at (config self) <$> dates).
Proof.
  unfold _simulate_comments_count. apply for_enumerate_map.
  intros i date. by rewrite simulate_likes_count_eq.
Qed.

Lemma simulate_ad_revenue_eq (dates : list Z) :
  _simulate_ad_revenue self dates = Ok (ad_revenue_at (config self) <$> dates).
Proof.
  unfold _simulate_ad_revenue. apply for_enumerate_map.
  intros i date. by rewrite simulate_active_users_eq.
Qed.

Lemma simulate_creator_earnings_eq (dates : list Z) :
  _simulate_creator_earnings self dates
  = Ok (creator_earnings_at (config self) <$> dates).
Proof.
  unfold _simulate_creator_earnings. apply for_enumerate_map.
  intros i date. by rewrite simulate_ad_revenue_eq.
Qed.

Lemma simulate_ecommerce_revenue_eq (dates : list Z) :
  _simulate_ecommerce_revenue self dates = Ok (ecommerce_at (config self) <$> dates).
Proof.
  unfold _simulate_ecommerce_revenue. apply for_enumerate_map.
  intros i date. rewrite simulate_ad_revenue_eq. unfold ecommerce_at.
  by repeat case_match.
Qed.

Lemma simulate_engagement_rate_eq (dates : list Z) :
  _simulate_engagement_rate self dates = Ok (engagement_at (config self) <$> dates).
Proof. unfold _simulate_engagement_rate. by apply for_enumerate_map. Qed.

Lemma user_growth_rate_loop_eq (dates : list Z) (previous_users : float) :
  user_growth_rate_loop self previous_users dates
  = Ok (growth_rates_from (config self) previous_users dates).
Proof.
  revert previous_users.
  induction dates as [|date dates IH]; intros previous_users; [done|].
  cbn [user_growth_rate_loop growth_rates_from].
  rewrite simulate_tiktok_users_single. cbn.
  rewrite guarded_truediv_ok. cbn. by rewrite IH.
Qed.

Lemma simulate_user_growth_rate_eq (dates : list Z) :
  _simulate_user_growth_rate self dates
  = Ok (growth_rates_from (config self) (tiktok_users_base (config self)) dates).
Proof. apply user_growth_rate_loop_eq. Qed.

Lemma simulate_virality_score_eq (dates : list Z) :
  _simulate_virality_score self dates = Ok (virality_at (config self) <$> dates).
Proof. unfold _simulate_virality_score. by apply for_enumerate_map. Qed.

Lemma simulate_young_users_eq (dates : list Z) :
  _simulate_young_users self dates = Ok (young_at (config self) <$> dates).
Proof.
  unfold _simulate_young_users. apply for_enumerate_map.
  intros i date. by rewrite simulate_tiktok_users_single.
Qed.

Lemma simulate_adult_users_eq (dates : list Z) :
  _simulate_adult_users self dates = Ok (adult_at (config self) <$> dates).
Proof.
  unfold _simulate_adult_users. apply for_enumerate_map.
  intros i date. by rewrite simulate_tiktok_users_single.
Qed.

Lemma simulate_older_users_eq (dates : list Z) :
  _simulate_older_users self dates = Ok (older_at (config self) <$> dates).
Proof.
  unfold _simulate_older_users. apply for_enumerate_map.
  intros i date. by rewrite simulate_tiktok_users_single.
Qed.

Lemma growth_rates_from_length (dates : list Z) (previous_users : float) :
  length (growth_rates_from (config self) previous_users dates) = length dates.
Proof.
  revert previous_users.
  induction dates as [|date dates IH]; intros previous_users; [done|].
  cbn. by rewrite IH.
Qed.

End Stages.

(** ** The table before the trend adjustments *)

Lemma nth_fmap_lookup {A} (f : A → float) (l : list A) (k : nat) (x : A) :
  l !! k = Some x → nth k (f <$> l) 0%float = f x.
Proof. intros Hk. by rewrite nth_lookup, list_lookup_fmap, Hk. Qed.

Lemma nth_imap_lookup {A} (g : nat → A → float) (l : list A) (k : nat) (x : A) :
  l !! k = Some x → nth k (imap g l) 0%float = g k x.
Proof. intros Hk. by rewrite nth_lookup, list_lookup_imap, Hk. Qed.

Lemma simulated_table_eq (self : t) :
  simulated_table self
  = Ok (simulated_rows (config self) (date_range (start_year self) (end_year self))).
Proof.
  unfold simulated_table.
  generalize (date_range (start_year self) (end_year self)) as dates.
  intros dates.
  rewrite simulate_population_eq, simulate_tiktok_users_eq,
    simulate_active_users_eq, simulate_time_spent_eq,
    simulate_videos_uploaded_eq, simulate_likes_count_eq,
    simulate_shares_count_eq, simulate_comments_count_eq,
    simulate_ad_revenue_eq, simulate_creator_earnings_eq,
    simulate_ecommerce_revenue_eq, simulate_engagement_rate_eq,
    simulate_user_growth_rate_eq, simulate_virality_score_eq,
    simulate_young_users_eq, simulate_adult_users_eq,
    simulate_older_users_eq.
  cbn [mbind result_bind]. unfold make_DataFrame.
  cbn [forallb].
  rewrite !length_imap, !length_fmap, growth_rates_from_length, Nat.eqb_refl.
  cbn [andb]. f_equal. unfold simulated_rows.
  apply imap_ext. intros k year Hk. unfold simulated_row.
  by rewrite !(nth_fmap_lookup _ _ _ _ Hk), !(nth_imap_lookup _ _ _ _ Hk).
Qed.

(** ** The trend adjustments *)

Section Trends.

Variable self : t.

Lemma imul_when_insert (cond : bool) (df : DataFrame) (i : nat) (r : Row)
    (c : column) (k : float) :
  i < length df →
  imul_when cond (<[i := r]> df) i c k
  = Ok (<[i := if cond then set_cell c (PrimFloat.mul (cell c r) k) r else r]> df).
Proof.
  intros Hi. unfold imul_when, loc_imul. destruct cond; [|done].
  by rewrite list_lookup_insert_eq, list_insert_insert_eq.
Qed.

Lemma country_trends_step_eq (df : DataFrame) (i : nat) (r : Row) :
  df !! i = Some r →
  country_trends_step self df i = Ok (<[i := trends_on_row (config self) r]> df).
Proof.
  intros Hr. assert (i < length df) as Hi by by eapply lookup_lt_Some.
  unfold country_trends_step, loc_year. rewrite Hr. cbn [mbind result_bind].
  rewrite <- (list_insert_id df i r Hr) at 1.
  rewrite (imul_when_insert _ _ _ _ _ _ Hi). cbn [mbind result_bind].
  rewrite (imul_when_insert _ _ _ _ _ _ Hi). cbn [mbind result_bind].
  rewrite (imul_when_insert _ _ _ _ _ _ Hi). cbn [mbind result_bind].
  rewrite (imul_when_insert _ _ _ _ _ _ Hi). cbn [mbind result_bind].
  rewrite (imul_when_insert _ _ _ _ _ _ Hi). cbn [mbind result_bind].
  by rewrite (imul_when_insert _ _ _ _ _ _ Hi).
Qed.

(** The six in-place products amount to the window-by-window description
    [adjusted_row]: the two windows of the growth rate are disjoint. *)
Lemma trends_on_row_adjusted (r : Row) :
  trends_on_row (config self) r = adjusted_row (config self) r.
Proof.
  destruct r as [y po us ac ti vi li sh co ad cr ec en gr vr u1 u2 u3].
  unfold trends_on_row, adjusted_row, adjusted_growth_rate, in_window.
  cbn [Year User_Growth_Rate Ad_Revenue Time_Spent_Per_User Active_Users
       E_Commerce_Revenue].
  assert (((2016 <=? y)%Z && (y <=? 2018)%Z) = true →
          ((2023 <=? y)%Z && str_eq (market_type (config self)) "mature")
          = false) as Hdisjoint.
  { intros [_ H18]%andb_prop. apply andb_false_intro1. lia. }
  destruct ((2016 <=? y)%Z && (y <=? 2018)%Z);
    [rewrite (Hdisjoint eq_refl)
    |destruct ((2023 <=? y)%Z && str_eq (market_type (config self)) "mature")];
    clear Hdisjoint;
    destruct ((2019 <=? y)%Z && (y <=? 2020)%Z),
      ((2020 <=? y)%Z && (y <=? 2021)%Z),
      ((2021 <=? y)%Z && (y <=? 2023)%Z
       && py_in "e-commerce" (specialties (config self)));
    reflexivity.
Qed.

Lemma iterrows_fold_eq (suf pre : DataFrame) :
  iterrows_fold self (seq (length pre) (length suf)) (pre ++ suf)
  = Ok (pre ++ (adjusted_row (config self) <$> suf)).
Proof.
  revert pre. induction suf as [|r suf IH]; intros pre; [done|].
  cbn [length seq iterrows_fold].
  rewrite (country_trends_step_eq _ _ r) by (by apply list_lookup_middle).
  cbn [mbind result_bind].
  replace (<[length pre := trends_on_row (config self) r]> (pre ++ r :: suf))
    with ((pre ++ [trends_on_row (config self) r]) ++ suf).
  2:{ rewrite <- (Nat.add_0_r (length pre)) at 1.
      by rewrite insert_app_r, <- app_assoc. }
  replace (S (length pre)) with (length (pre ++ [trends_on_row (config self) r]))
    by (rewrite length_app; cbn; lia).
  rewrite IH, <- app_assoc, trends_on_row_adjusted. done.
Qed.

Lemma add_country_trends_eq (df : DataFrame) :
  _add_country_trends self df = Ok (adjusted_row (config self) <$> df).
Proof. apply (iterrows_fold_eq df []). Qed.

Lemma generate_tiktok_data_eq :
  generate_tiktok_data self
  = Ok (adjusted_row (config self)
          <$> simulated_rows (config self) (date_range (start_year self) (end_year self))).
Proof.
  unfold generate_tiktok_data. rewrite simulated_table_eq.
  apply add_country_trends_eq.
Qed.

End Trends.

(** ** The configuration table *)

Lemma configs_default : configs !! "default" = Some default_config.
Proof. reflexivity. Qed.

Lemma get_country_config_eq (name : string) :
  _get_country_config name = Ok (default default_config (configs !! name)).
Proof.
  unfold _get_country_config, dict_getitem, dict_get.
  by rewrite configs_default.
Qed.

(** Whatever the name, the resolved profile is an entry of the literal. *)
Lemma get_country_config_entry (name : string) :
  ∃ key, (key, default default_config (configs !! name)) ∈ configs_items.
Proof.
  destruct (configs !! name) as [cfg|] eqn:Hname; cbn.
  - exists name. by apply (elem_of_list_to_map_2 (M := gmap string)).
  - exists "default"%string.
    by apply (elem_of_list_to_map_2 (M := gmap string)), configs_default.
Qed.

(** A property of the profile holds of every resolved profile as soon as
    it holds of the sixteen entries. *)
Lemma resolved_config_ind (P : Config → Prop) :
  Forall (λ item, P item.2) configs_items →
  ∀ name, ∃ cfg, _get_country_config name = Ok cfg ∧ P cfg.
Proof.
  intros HP name. exists (default default_config (configs !! name)).
  split; [apply get_country_config_eq|].
  destruct (get_country_config_entry name) as [key Hkey].
  by apply (proj1 (Forall_forall _ _) HP (key, _)).
Qed.

Lemma float_mul_comm (x y : float) : (x * y = y * x)%float.
Proof.
  apply Prim2SF_inj. rewrite !FloatAxioms.mul_spec. unfold SF64mul, SFmul.
  destruct (Prim2SF x) as [sx|sx| |sx mx ex], (Prim2SF y) as [sy|sy| |sy my ey];
    try done; try (by rewrite (xorb_comm sx sy)).
  by rewrite (xorb_comm sx sy), (Pos.mul_comm mx my), (Z.add_comm ex ey).
Qed.

(** ** Rows of the two tables *)

Lemma simulated_rows_lookup (cfg : Config) (dates : list Z) (k : nat)
    (r : Row) :
  simulated_rows cfg dates !! k = Some r →
  ∃ year g, dates !! k = Some year ∧ r = simulated_row cfg k year g
    ∧ g = nth k (growth_rates_from cfg (tiktok_users_base cfg) dates) 0%float.
Proof.
  unfold simulated_rows. rewrite list_lookup_imap.
  destruct (dates !! k) as [year|]; [|done].
  intros [= <-]. eauto.
Qed.

(** ** Binary64: where not-a-number can come from *)

Lemma shr_1_nonneg (mrs : shr_record) :
  (0 ≤ shr_m mrs)%Z → (0 ≤ shr_m (shr_1 mrs))%Z.
Proof.
  destruct mrs as [m r s]. destruct m as [|p|p]; cbn; [done| |lia].
  intros _. destruct p; cbn; lia.
Qed.

Lemma iter_pos_invariant {A} (P : A → Prop) (f : A → A) :
  (∀ x, P x → P (f x)) → ∀ n x, P x → P (SpecFloat.iter_pos f n x).
Proof.
  intros Hf n. induction n as [n IH|n IH|]; intros x Hx; cbn; auto.
Qed.

Lemma shr_fexp_nonneg (m e : Z) (l : location) :
  (0 ≤ m)%Z → (0 ≤ shr_m (shr_fexp prec emax m e l).1)%Z.
Proof.
  intros Hm. unfold shr_fexp, shr.
  assert (0 ≤ shr_m (shr_record_of_loc m l))%Z as Hrec
    by by destruct l as [|[]].
  destruct (_ - e)%Z; cbn [fst]; [done| |done].
  by apply (iter_pos_invariant (λ mrs, (0 ≤ shr_m mrs)%Z) _ shr_1_nonneg).
Qed.

Lemma round_nearest_even_nonneg (mx : Z) (lx : location) :
  (0 ≤ mx)%Z → (0 ≤ round_nearest_even mx lx)%Z.
Proof.
  intros Hmx. destruct lx as [|[]]; cbn; [done| |done|lia].
  destruct (Z.even mx); lia.
Qed.

(** Rounding a non-negative mantissa gives a zero, a finite number or an
    infinity. *)
Lemma binary_round_aux_not_nan (sx : bool) (mx ex : Z) (lx : location) :
  (0 ≤ mx)%Z → binary_round_aux prec emax sx mx ex lx ≠ S754_nan.
Proof.
  intros Hmx. unfold binary_round_aux.
  pose proof (shr_fexp_nonneg mx ex lx Hmx) as H1.
  destruct (shr_fexp prec emax mx ex lx) as [mrs' e']. cbn [fst] in H1.
  pose proof (shr_fexp_nonneg _ e' loc_Exact
                (round_nearest_even_nonneg _ (loc_of_shr_record mrs') H1)) as H2.
  destruct (shr_fexp prec emax _ e' loc_Exact) as [mrs'' e'']. cbn [fst] in H2.
  destruct (shr_m mrs''); [done| |lia].
  by destruct (_ <=? _)%Z.
Qed.

Lemma binary_normalize_not_nan (m e : Z) (szero : bool) :
  binary_normalize prec emax m e szero ≠ S754_nan.
Proof.
  destruct m as [|p|p]; cbn; [done| |]; unfold binary_round;
    destruct (shl_align _ _ _) as [mz ez]; by apply binary_round_aux_not_nan.
Qed.

Lemma SFcompare_refl (x : spec_float) :
  x ≠ S754_nan → SFcompare x x = Some Eq.
Proof.
  destruct x as [s|s| |s m e]; cbn; [done|by destruct s|done|].
  intros _. change (PosDef.Pos.compare_cont Eq m m) with (Pos.compare m m).
  rewrite Z.compare_refl, Pos.compare_refl. by destruct s.
Qed.

Lemma SFcompare_antisym (x y : spec_float) :
  SFcompare y x = CompOpp <$> SFcompare x y.
Proof.
  destruct x as [sx|sx| |sx mx ex], y as [sy|sy| |sy my ey]; cbn;
    try done; try (by destruct sx); try (by destruct sy);
    try (by destruct sx, sy).
  change (PosDef.Pos.compare_cont Eq mx my) with (Pos.compare mx my).
  change (PosDef.Pos.compare_cont Eq my mx) with (Pos.compare my mx).
  rewrite (Z.compare_antisym ex ey), (Pos.compare_antisym mx my).
  destruct sx, sy; cbn; try done;
    destruct (ex ?= ey)%Z; cbn; try done; by destruct (mx ?= my)%positive.
Qed.

Lemma SFcompare_defined (x y : spec_float) :
  x ≠ S754_nan → y ≠ S754_nan → is_Some (SFcompare x y).
Proof.
  destruct x as [sx|sx| |sx mx ex], y as [sy|sy| |sy my ey]; cbn; try done;
    intros _ _; eauto.
Qed.

Lemma is_nan_spec (x : float) : is_nan x = false ↔ Prim2SF x ≠ S754_nan.
Proof.
  unfold is_nan. rewrite FloatAxioms.eqb_spec. unfold SFeqb. split.
  - intros Hx Hnan. by rewrite Hnan in Hx.
  - intros Hx. by rewrite (SFcompare_refl _ Hx).
Qed.

Lemma mul_not_nan (a x : float) :
  finite_nonzero a = true → is_nan x = false → is_nan (a * x) = false.
Proof.
  rewrite !is_nan_spec. unfold finite_nonzero. rewrite FloatAxioms.mul_spec.
  unfold SF64mul, SFmul.
  destruct (Prim2SF a) as [| | |sa ma ea]; [done..|]. intros _.
  destruct (Prim2SF x) as [sx|sx| |sx mx ex]; [done..|].
  intros _. by apply binary_round_aux_not_nan.
Qed.

Lemma one_add_not_nan (x : float) : is_nan x = false → is_nan (1 + x) = false.
Proof.
  rewrite !is_nan_spec. rewrite FloatAxioms.add_spec.
  change (Prim2SF 1) with (S754_finite false 4503599627370496 (-52)).
  unfold SF64add, SFadd.
  destruct (Prim2SF x) as [sx|sx| |sx mx ex]; [done..|].
  intros _. apply binary_normalize_not_nan.
Qed.

Lemma float_of_index_not_nan (i : nat) : is_nan (float_of_index i) = false.
Proof.
  unfold float_of_index. rewrite is_nan_spec, FloatAxioms.of_uint63_spec.
  apply binary_normalize_not_nan.
Qed.

Lemma py_min_not_nan (a b : float) :
  is_nan a = false → is_nan b = false → is_nan (py_min a b) = false.
Proof. intros Ha Hb. unfold py_min. by destruct (b <? a)%float. Qed.

(** On numbers, [min(a, b)] is at most [b]. *)
Lemma py_min_le (a b : float) :
  is_nan a = false → is_nan b = false → (py_min a b <=? b)%float = true.
Proof.
  rewrite !is_nan_spec. intros Ha Hb. unfold py_min.
  destruct (b <? a)%float eqn:Hlt; rewrite FloatAxioms.leb_spec; unfold SFleb.
  - by rewrite (SFcompare_refl _ Hb).
  - rewrite FloatAxioms.ltb_spec in Hlt. unfold SFltb in Hlt.
    rewrite (SFcompare_antisym (Prim2SF b) (Prim2SF a)).
    destruct (SFcompare_defined _ _ Hb Ha) as [c Hc]. rewrite Hc in Hlt |- *.
    by destruct c.
Qed.

(** ** The year only matters through its bracket *)

Lemma ltb_clamp_year (year c : Z) :
  (2016 ≤ c ≤ 2024)%Z → (year <? c)%Z = (clamp_year year <? c)%Z.
Proof.
  intros Hc. unfold clamp_year.
  destruct (Z.ltb_spec year c), (Z.ltb_spec (Z.max 2015 (Z.min year 2024)) c);
    lia.
Qed.

Lemma leb_clamp_year (year c : Z) :
  (2016 ≤ c ≤ 2024)%Z → (c <=? year)%Z = (c <=? clamp_year year)%Z.
Proof.
  intros Hc. unfold clamp_year.
  destruct (Z.leb_spec c year), (Z.leb_spec c (Z.max 2015 (Z.min year 2024)));
    lia.
Qed.

Lemma geb_clamp_year (year c : Z) :
  (2015 ≤ c ≤ 2023)%Z → (year <=? c)%Z = (clamp_year year <=? c)%Z.
Proof.
  intros Hc. unfold clamp_year.
  destruct (Z.leb_spec year c), (Z.leb_spec (Z.max 2015 (Z.min year 2024)) c);
    lia.
Qed.

Lemma clamp_year_range (year : Z) : clamp_year year ∈ seqZ 2015 10.
Proof. apply elem_of_seqZ. unfold clamp_year. lia. Qed.

(** Rewrites every comparison of [year] in the goal into the same
    comparison of its bracket. *)
Ltac clamp_comparisons year :=
  rewrite ?(ltb_clamp_year year 2018), ?(ltb_clamp_year year 2019),
    ?(ltb_clamp_year year 2020), ?(ltb_clamp_year year 2021),
    ?(ltb_clamp_year year 2022), ?(ltb_clamp_year year 2023),
    ?(leb_clamp_year year 2016), ?(leb_clamp_year year 2019),
    ?(leb_clamp_year year 2020), ?(leb_clamp_year year 2021),
    ?(leb_clamp_year year 2023),
    ?(geb_clamp_year year 2018), ?(geb_clamp_year year 2020),
    ?(geb_clamp_year year 2021), ?(geb_clamp_year year 2023) by lia.

Lemma users_growth_rate_clamp (cfg : Config) (year : Z) :
  users_growth_rate cfg year = users_growth_rate cfg (clamp_year year).
Proof. unfold users_growth_rate. by clamp_comparisons year. Qed.

Lemma year_cell_clamp (cfg : Config) (k : nat) (year : Z) (g : float)
    (c : column) :
  c ∈ year_columns →
  cell c (adjusted_row cfg (simulated_row cfg k year g))
  = cell c (adjusted_row cfg (simulated_row cfg 0 (clamp_year year) 0)).
Proof.
  intros Hc.
  destruct c;
    try (apply (bool_decide_eq_true_2 _) in Hc; vm_compute in Hc;
         discriminate Hc);
    cbn [cell adjusted_row simulated_row Year Active_Users Time_Spent_Per_User
         Videos_Uploaded Likes_Count Shares_Count Comments_Count Ad_Revenue
         Creator_Earnings E_Commerce_Revenue Engagement_Rate Virality_Score
         Users_Under_25 Users_25_34 Users_Over_35];
    unfold in_window, shares_at, comments_at, likes_at, likes_per_video_at,
      videos_at, videos_per_user_at, creator_earnings_at, ecommerce_at,
      ad_revenue_at, revenue_per_user_at, active_at, time_spent_at,
      engagement_at, virality_at, young_at, adult_at, older_at, users_at;
    rewrite ?(users_growth_rate_clamp cfg year);
    by clamp_comparisons year.
Qed.

(** ** The growth-rate series *)

(** When every single-date re-derivation returns the carried value, and
    the rate of that value against itself is 0, the whole series is 0. *)
Lemma growth_rates_from_fixpoint (cfg : Config) (b : float) (dates : list Z) :
  (∀ year, users_at cfg 0 year = b) →
  (if 0 <? b then (b - b) / b else 0)%float = 0%float →
  Forall (λ g, g = 0%float) (growth_rates_from cfg b dates).
Proof.
  intros Husers Hrate.
  induction dates as [|date dates IH]; [constructor|].
  cbn [growth_rates_from]. rewrite Husers. by constructor.
Qed.

Lemma nth_Forall_default {A} (l : list A) (d : A) (k : nat) :
  Forall (λ x, x = d) l → nth k l d = d.
Proof.
  intros Hl. rewrite nth_lookup.
  destruct (l !! k) as [x|] eqn:Hk; [|done].
  by apply (proj1 (Forall_lookup _ _) Hl k x).
Qed.

(** The trend multipliers leave a zero growth rate at zero. *)
Lemma adjusted_growth_rate_zero (cfg : Config) (r : Row) :
  User_Growth_Rate r = 0%float → adjusted_growth_rate cfg r = 0%float.
Proof.
  intros Hr. unfold adjusted_growth_rate. rewrite Hr.
  by repeat case_match.
Qed.

(** ** The tables of a checked profile, for any list of dates *)

Lemma population_at_not_nan (cfg : Config) (k : nat) :
  finite_nonzero (population_base cfg) = true →
  finite_nonzero (population_growth_rate cfg) = true →
  is_nan (population_at cfg k) = false.
Proof.
  intros Hbase Hrate. unfold population_at.
  apply mul_not_nan, one_add_not_nan, mul_not_nan, float_of_index_not_nan;
    done.
Qed.

Lemma users_at_not_nan (cfg : Config) (k : nat) (year : Z) :
  finite_nonzero (tiktok_users_base cfg) = true →
  finite_nonzero (users_growth_rate cfg year) = true →
  is_nan (max_users cfg) = false →
  is_nan (users_at cfg k year) = false
  ∧ (users_at cfg k year <=? max_users cfg)%float = true.
Proof.
  intros Hbase Hrate Hmax.
  assert (is_nan (tiktok_users_base cfg
                  * (1 + users_growth_rate cfg year * float_of_index k)) = false)
    by (apply mul_not_nan, one_add_not_nan, mul_not_nan,
          float_of_index_not_nan; done).
  unfold users_at. split; [by apply py_min_not_nan|by apply py_min_le].
Qed.

Lemma max_users_ceiling (cfg : Config) : max_users cfg = users_ceiling cfg.
Proof.
  unfold max_users, ceiling_fraction, users_ceiling.
  by destruct (str_eq (market_type cfg) "domestic").
Qed.

Lemma checked_profile_rows (cfg : Config) (dates : list Z) :
  profile_checks cfg = true →
  base_is_fixpoint cfg →
  Forall (row_is_sound cfg) (adjusted_row cfg <$> simulated_rows cfg dates).
Proof.
  unfold profile_checks. rewrite !andb_true_iff, forallb_forall.
  intros ((((Hpop & Hbase) & Hprate) & Hmax%negb_true_iff) & Hyears)
    [Husers Hrate].
  apply Forall_fmap, Forall_lookup. intros k r Hk.
  apply simulated_rows_lookup in Hk as (year & g & _ & -> & ->).
  specialize (Hyears (clamp_year year)
                (proj1 (list_elem_of_In _ _) (clamp_year_range year))).
  apply andb_prop in Hyears as [Hurate Hcells].
  rewrite <- users_growth_rate_clamp in Hurate.
  destruct (users_at_not_nan cfg k year Hbase Hurate Hmax) as [Hnan Hle].
  assert (adjusted_growth_rate cfg
            (simulated_row cfg k year
               (nth k (growth_rates_from cfg (tiktok_users_base cfg) dates)
                  0%float))
          = 0%float) as Hzero.
  { apply adjusted_growth_rate_zero. cbn [User_Growth_Rate simulated_row].
    by apply nth_Forall_default, growth_rates_from_fixpoint. }
  split; [|split; [by rewrite <- max_users_ceiling|done]].
  intros c.
  destruct (decide (c ∈ year_columns)) as [Hc|Hc].
  - rewrite (year_cell_clamp cfg k year _ c Hc).
    rewrite forallb_forall in Hcells.
    by apply negb_true_iff, Hcells, list_elem_of_In.
  - destruct c;
      try (exfalso; apply Hc, (bool_decide_eq_true_1 _); vm_compute;
           reflexivity);
      cbn [cell adjusted_row simulated_row Population TikTok_Users
           User_Growth_Rate].
    + by apply population_at_not_nan.
    + done.
    + by rewrite Hzero.
Qed.

(** ** The sixteen profiles *)

(** Position 0 of the user series gives the base of the profile, which is
    below its ceiling, whatever the year. *)
Lemma configured_base_is_fixpoint :
  Forall (λ item, base_is_fixpoint item.2) configs_items.
Proof.
  unfold configs_items.
  repeat first [apply List.Forall_nil | apply List.Forall_cons];
    (split; [|vm_compute; reflexivity]);
    intros year;
    unfold users_at, max_users, users_growth_rate, ceiling_fraction;
    cbn [snd]; destruct (year <? 2020)%Z; vm_compute; reflexivity.
Qed.

Lemma configured_profile_checks :
  Forall (λ item, profile_checks item.2 = true) configs_items.
Proof.
  unfold configs_items.
  repeat first [apply List.Forall_nil | apply List.Forall_cons];
    vm_compute; reflexivity.
Qed.

(** The table depends on the analyzer through its profile and its year
    range only. *)
Lemma generate_tiktok_data_config (a b : t) :
  config a = config b →
  start_year a = start_year b →
  end_year a = end_year b →
  generate_tiktok_data a = generate_tiktok_data b.
Proof.
  destruct a as [ca sa ea cfga], b as [cb sb eb cfgb]. cbn.
  intros -> -> ->. by rewrite !generate_tiktok_data_eq.
Qed.

Lemma tiktok_data_resolved (name : string) (cfg : Config) :
  _get_country_config name = Ok cfg →
  tiktok_data name = generate_tiktok_data (mkSelf name 2016 2025 cfg).
Proof.
  intros Hcfg. unfold tiktok_data, __init__. rewrite Hcfg.
  cbn [mbind result_bind]. reflexivity.
Qed.

Lemma tiktok_data_eq (name : string) :
  tiktok_data name
  = generate_tiktok_data
      (mkSelf name 2016 2025 (default default_config (configs !! name))).
Proof. apply tiktok_data_resolved, get_country_config_eq. Qed.

(** Whatever the country name and the year range, generation returns a
    table all of whose records are sound; [main] runs it on the range
    2016 .. 2025 that [__init__] sets. *)
Lemma resolved_tables_sound (name : string) :
  ∃ cfg,
    _get_country_config name = Ok cfg
    ∧ tiktok_data name = generate_tiktok_data (mkSelf name 2016 2025 cfg)
    ∧ ∀ first_year last_year, ∃ df,
        generate_tiktok_data (mkSelf name first_year last_year cfg) = Ok df
        ∧ Forall (row_is_sound cfg) df.
Proof.
  destruct (resolved_config_ind
              (λ cfg, profile_checks cfg = true ∧ base_is_fixpoint cfg)) with name
    as (cfg & Hcfg & Hchecks & Hbase).
  { apply Forall_and.
    split; [apply configured_profile_checks|apply configured_base_is_fixpoint]. }
  exists cfg. split; [done|]. split.
  { by apply tiktok_data_resolved. }
  intros first_year last_year. eexists.
  split; [apply generate_tiktok_data_eq|].
  by apply checked_profile_rows.
Qed.

(** ** The claims *)

(** C6.  In the final table of every analyzer (any profile, any year
    range) the number of shares of a record is exactly 0.08 times its
    number of likes and the number of comments exactly 0.05 times it; the
    trend adjustments leave the three columns as they were. *)
Theorem shares_comments_fixed_ratio_of_likes (self : t) :
  (∃ df, generate_tiktok_data self = Ok df
     ∧ length df = length (date_range (start_year self) (end_year self))
     ∧ Forall (λ r, Shares_Count r = (0.08 * Likes_Count r)%float
                  ∧ Comments_Count r = (0.05 * Likes_Count r)%float) df)
  ∧ (∀ df, ∃ df', _add_country_trends self df = Ok df'
       ∧ Likes_Count <$> df' = Likes_Count <$> df
       ∧ Shares_Count <$> df' = Shares_Count <$> df
       ∧ Comments_Count <$> df' = Comments_Count <$> df).
Proof.
  split.
  - eexists. split; [apply generate_tiktok_data_eq|]. split.
    + unfold simulated_rows. by rewrite length_fmap, length_imap.
    + apply Forall_fmap, Forall_lookup. intros k r Hk.
      apply simulated_rows_lookup in Hk as (year & g & _ & -> & _).
      cbn. unfold shares_at, comments_at. split; apply float_mul_comm.
  - intros df. eexists. split; [apply add_country_trends_eq|].
    rewrite <- !list_fmap_compose. by repeat split.
Qed.

(** C9.  The trend adjustments never raise, keep the number of rows and
    the year of each row, and change a row only as follows: the growth
    rate is multiplied by 1.2 in 2016-2018 and, for a mature market, by
    0.7 from 2023 on; the ad revenue by 1.3 in 2019-2020; the time spent
    by 1.25 and the active users by 1.15 in 2020-2021; the e-commerce
    revenue by 1.4 in 2021-2023 when "e-commerce" is a specialty.  Every
    other cell of every row is left as it was. *)
Theorem add_country_trends_frame (self : t) (df : DataFrame) :
  ∃ df', _add_country_trends self df = Ok df'
    ∧ length df' = length df
    ∧ ∀ k r, df !! k = Some r →
        ∃ r', df' !! k = Some r'
          ∧ Year r' = Year r
          ∧ User_Growth_Rate r' =
              (if in_window 2016 2018 (Year r)
               then User_Growth_Rate r * 1.2
               else if (2023 <=? Year r)%Z
                       && str_eq (market_type (config self)) "mature"
               then User_Growth_Rate r * 0.7
               else User_Growth_Rate r)%float
          ∧ Ad_Revenue r' =
              (if in_window 2019 2020 (Year r) then Ad_Revenue r * 1.3
               else Ad_Revenue r)%float
          ∧ Time_Spent_Per_User r' =
              (if in_window 2020 2021 (Year r)
               then Time_Spent_Per_User r * 1.25
               else Time_Spent_Per_User r)%float
          ∧ Active_Users r' =
              (if in_window 2020 2021 (Year r) then Active_Users r * 1.15
               else Active_Users r)%float
          ∧ E_Commerce_Revenue r' =
              (if in_window 2021 2023 (Year r)
                  && py_in "e-commerce" (specialties (config self))
               then E_Commerce_Revenue r * 1.4
               else E_Commerce_Revenue r)%float
          ∧ ∀ c, c ∉ adjusted_columns → cell c r' = cell c r.
Proof.
  exists (adjusted_row (config self) <$> df).
  split; [apply add_country_trends_eq|].
  split; [apply length_fmap|].
  intros k r Hk. exists (adjusted_row (config self) r).
  split; [by rewrite list_lookup_fmap, Hk|].
  repeat split.
  intros c Hc. destruct c; try reflexivity;
    exfalso; apply Hc; unfold adjusted_columns; set_solver.
Qed.

(** C7.  The profile lookup never fails.  A name that is not a key of the
    table resolves to the profile stored under "default", and the table
    generated for it is the table generated for the name "default". *)
Theorem unknown_country_resolves_to_default (name : string) :
  (∃ cfg, _get_country_config name = Ok cfg)
  ∧ (configs !! name = None →
       _get_country_config name = Ok default_config
       ∧ _get_country_config name = _get_country_config "default"
       ∧ tiktok_data name = tiktok_data "default"
       ∧ ∃ df, tiktok_data name = Ok df).
Proof.
  split; [eexists; apply get_country_config_eq|].
  intros Hname.
  assert (_get_country_config name = Ok default_config) as Hcfg
    by by rewrite get_country_config_eq, Hname.
  split; [done|]. split; [by rewrite Hcfg|].
  assert (tiktok_data name = tiktok_data "default") as Hsame.
  { rewrite !tiktok_data_eq, Hname, configs_default.
    by apply generate_tiktok_data_config. }
  split; [done|].
  eexists. rewrite tiktok_data_eq. apply generate_tiktok_data_eq.
Qed.

Lemma unknown_country_resolves_to_default_witness :
  configs !! "Atlantis" = None
  ∧ _get_country_config "Atlantis" = Ok default_config
  ∧ tiktok_data "Atlantis" = tiktok_data "default".
Proof.
  split; [reflexivity|].
  destruct (unknown_country_resolves_to_default "Atlantis") as [_ H].
  destruct (H eq_refl) as (H1 & _ & H2 & _).
  split; [exact H1 | exact H2].
Defined.

(** C5.  The number of TikTok users never exceeds the ceiling, that is
    the population of the profile times 0.45 for a domestic market and
    times 0.65 for any other.  For every analyzer (any profile, any dates)
    no entry of the series and no record of the final table is above the
    ceiling; for every country name and every year range the comparison
    [TikTok_Users <= ceiling] holds in every record of the final table. *)
Theorem tiktok_users_never_exceed_ceiling :
  (∀ (self : t) (dates : list Z), ∃ users,
      _simulate_tiktok_users self dates = Ok users
      ∧ length users = length dates
      ∧ Forall (λ u, (users_ceiling (config self) <? u)%float = false) users)
  ∧ (∀ self : t, ∃ df,
      generate_tiktok_data self = Ok df
      ∧ Forall (λ r, (users_ceiling (config self) <? TikTok_Users r)%float
                     = false) df)
  ∧ (∀ name : string, ∃ cfg,
      _get_country_config name = Ok cfg
      ∧ tiktok_data name = generate_tiktok_data (mkSelf name 2016 2025 cfg)
      ∧ ∀ first_year last_year, ∃ df,
          generate_tiktok_data (mkSelf name first_year last_year cfg) = Ok df
          ∧ Forall (λ r, (TikTok_Users r <=? users_ceiling cfg)%float = true)
              df).
Proof.
  split; [|split].
  - intros self dates. eexists.
    split; [apply simulate_tiktok_users_eq|].
    split; [apply length_imap|].
    apply Forall_lookup. intros k u. rewrite list_lookup_imap.
    destruct (dates !! k) as [year|]; [|done]. intros [= <-]. cbn beta.
    rewrite <- max_users_ceiling. apply py_min_not_above.
  - intros self. eexists. split; [apply generate_tiktok_data_eq|].
    apply Forall_fmap, Forall_lookup. intros k r Hk.
    apply simulated_rows_lookup in Hk as (year & g & _ & -> & _).
    cbn [TikTok_Users simulated_row adjusted_row].
    rewrite <- max_users_ceiling. apply py_min_not_above.
  - intros name.
    destruct (resolved_tables_sound name) as (cfg & Hcfg & Hmain & Hrows).
    exists cfg. split; [done|]. split; [done|].
    intros first_year last_year.
    destruct (Hrows first_year last_year) as (df & Hdf & Hsound).
    exists df. split; [done|].
    eapply Forall_impl; [exact Hsound|]. by intros r (_ & Hle & _).
Qed.

(** C4.  For every country name, the growth rate is 0 in every record of
    the final table, on the range 2016 .. 2025 of [main] as on any other:
    the re-derivation of the user base for a single date reads position 0
    and returns the base of the profile, so that the carried difference is
    always zero, and the trend multipliers keep 0. *)
Theorem user_growth_rate_zero_in_final_table (name : string) :
  ∃ cfg,
    _get_country_config name = Ok cfg
    ∧ tiktok_data name = generate_tiktok_data (mkSelf name 2016 2025 cfg)
    ∧ ∀ first_year last_year,
        (∀ date, _simulate_tiktok_users (mkSelf name first_year last_year cfg)
                   [date] = Ok [tiktok_users_base cfg])
        ∧ ∃ df,
            generate_tiktok_data (mkSelf name first_year last_year cfg) = Ok df
            ∧ length df = length (date_range first_year last_year)
            ∧ Forall (λ r, User_Growth_Rate r = 0%float) df.
Proof.
  destruct (resolved_config_ind base_is_fixpoint configured_base_is_fixpoint name)
    as (cfg & Hcfg & Husers & Hrate).
  exists cfg. split; [done|]. split.
  { by apply tiktok_data_resolved. }
  intros first_year last_year. split.
  { intros date. rewrite simulate_tiktok_users_single. cbn [config].
    by rewrite Husers. }
  eexists. split; [apply generate_tiktok_data_eq|]. cbn [config start_year end_year].
  split; [by rewrite length_fmap; unfold simulated_rows; rewrite length_imap|].
  apply Forall_fmap, Forall_lookup. intros k r Hk.
  apply simulated_rows_lookup in Hk as (year & g & _ & -> & ->).
  apply adjusted_growth_rate_zero. cbn [User_Growth_Rate simulated_row].
  by apply nth_Forall_default, growth_rates_from_fixpoint.
Qed.



(** Evaluates a conjunction of closed equations, one conjunct at a time
    and from left to right, on the virtual machine. *)
Ltac evaluate_conjuncts :=
  repeat match goal with |- _ ∧ _ => split end; vm_compute; reflexivity.

(** ** Where the code departs from the specification

    The stages that re-derive the user base for one date call
    [_simulate_tiktok_users] on the one-element list [[date]]; its loop
    index restarts at 0 there, so that they all read the user base of the
    first year, whereas the [TikTok_Users] column is computed on the whole
    range.  The three evaluations below are for the United States. *)

(** C1.  For 2017 the column of users holds 135000000, whose product
    with the activity rate 0.75 is 101250000, but the column of active
    users (before the trend adjustments) holds 75000000, the product for
    the base of 100000000. *)
Theorem active_users_of_2017_use_the_base :
  ∃ df,
    (self ← __init__ "United States"; simulated_table self) = Ok df
    ∧ Year <$> df !! 1 = Some 2017%Z
    ∧ TikTok_Users <$> df !! 1 = Some 135000000%float
    ∧ Active_Users <$> df !! 1 = Some 75000000%float
    ∧ (135000000 * 0.75 = 101250000)%float
    ∧ (λ r, Active_Users r =? TikTok_Users r * 0.75)%float <$> df !! 1
      = Some false.
Proof. eexists. evaluate_conjuncts. Qed.

(** C2.  In the record of 2017 of the final table the three age
    brackets add up to 100000000, while the record has 135000000 users. *)
Theorem age_brackets_of_2017_sum_to_the_base :
  ∃ df,
    tiktok_data "United States" = Ok df
    ∧ Year <$> df !! 1 = Some 2017%Z
    ∧ TikTok_Users <$> df !! 1 = Some 135000000%float
    ∧ (λ r, Users_Under_25 r + Users_25_34 r + Users_Over_35 r)%float
        <$> df !! 1
      = Some 100000000%float.
Proof. eexists. evaluate_conjuncts. Qed.

(** C3.  The records of 2016 and 2017: the population, the users and the
    active users are the expected ones, the time spent is the binary64
    product 45 * 0.7 (one unit in the last place below 31.5), and the
    growth rate of 2017 is 0 both before and after the trend adjustments,
    although the user column it is meant to follow rises from 100000000
    to 135000000, a rate of 0.35 (0.42 once multiplied by 1.2). *)
Theorem united_states_2016_2017_records :
  ∃ before after,
    (self ← __init__ "United States"; simulated_table self) = Ok before
    ∧ tiktok_data "United States" = Ok after
    ∧ (λ r, (Year r, Population r, TikTok_Users r, Active_Users r,
             Time_Spent_Per_User r)) <$> after !! 0
      = Some (2016%Z, 331000000, 100000000, 75000000,
              31.499999999999996)%float
    ∧ (λ r, (Year r, TikTok_Users r)) <$> after !! 1
      = Some (2017%Z, 135000000%float)
    ∧ User_Growth_Rate <$> before !! 1 = Some 0%float
    ∧ User_Growth_Rate <$> after !! 1 = Some 0%float
    ∧ ((135000000 - 100000000) / 100000000 = 0.35)%float
    ∧ (0.35 * 1.2 = 0.42)%float
    ∧ (31.499999999999996 <? 31.5)%float = true.
Proof. eexists _, _. evaluate_conjuncts. Qed.

(** ** Further properties of the code *)

Lemma simulated_rows_years (cfg : Config) (dates : list Z) :
  Year <$> (adjusted_row cfg <$> simulated_rows cfg dates) = dates.
Proof.
  apply list_eq. intros k.
  rewrite !list_lookup_fmap. unfold simulated_rows. rewrite list_lookup_imap.
  by destruct (dates !! k).
Qed.

(** X2.  Before the trend adjustments the earnings of the creators are
    the ad revenue times 0.25 in every record.  In the final table they
    still follow the ad revenue as it was before its adjustment: in a
    record of 2019 or 2020 the ad revenue is 1.3 times the amount the
    earnings are a quarter of. *)
Theorem creator_earnings_follow_unadjusted_ad_revenue (self : t) :
  (∃ df, simulated_table self = Ok df
     ∧ Forall (λ r, Creator_Earnings r = (Ad_Revenue r * 0.25)%float) df)
  ∧ (∃ df, generate_tiktok_data self = Ok df
     ∧ Forall (λ r, ∃ revenue : float,
                 Creator_Earnings r = (revenue * 0.25)%float
                 ∧ Ad_Revenue r =
                     (if in_window 2019 2020 (Year r) then revenue * 1.3
                      else revenue)%float) df).
Proof.
  split.
  - eexists. split; [apply simulated_table_eq|].
    apply Forall_lookup. intros k r Hk.
    by apply simulated_rows_lookup in Hk as (year & g & _ & -> & _).
  - eexists. split; [apply generate_tiktok_data_eq|].
    apply Forall_fmap, Forall_lookup. intros k r Hk.
    apply simulated_rows_lookup in Hk as (year & g & _ & -> & _).
    by exists (ad_revenue_at (config self) year).
Qed.

(** X3.  For every analyzer, the e-commerce revenue of a record of a year
    before 2019 is 0 in the final table, with or without the "e-commerce"
    specialty. *)
Theorem no_ecommerce_revenue_before_2019 (self : t) :
  ∃ df, generate_tiktok_data self = Ok df
    ∧ Forall (λ r, (Year r < 2019)%Z → E_Commerce_Revenue r = 0%float) df.
Proof.
  eexists. split; [apply generate_tiktok_data_eq|].
  apply Forall_fmap, Forall_lookup. intros k r Hk.
  apply simulated_rows_lookup in Hk as (year & g & _ & -> & _).
  cbn [Year E_Commerce_Revenue adjusted_row simulated_row compose].
  intros Hyear. unfold in_window, ecommerce_at.
  replace (2021 <=? year)%Z with false by lia.
  replace (year <? 2019)%Z with true by lia.
  cbn [andb]. by destruct (py_in _ _).
Qed.

Lemma users_growth_at_position_0 (cfg : Config) (year : Z) :
  (1 + users_growth_rate cfg year * float_of_index 0 = 1)%float.
Proof. unfold users_growth_rate. by repeat case_match. Qed.

Lemma users_at_position_0 (cfg : Config) (year : Z) :
  users_at cfg 0 year = single_date_users cfg.
Proof.
  unfold users_at, single_date_users.
  by rewrite users_growth_at_position_0.
Qed.

(** X4.  For every analyzer, the call of [_simulate_tiktok_users] on a
    single date returns the same number of users whatever the date, and
    the three age brackets of every record of the final table are that
    number times the ratio of the bracket: they are the same in all the
    records. *)
Theorem age_brackets_are_constant (self : t) :
  ∃ df users,
    generate_tiktok_data self = Ok df
    ∧ (∀ date, _simulate_tiktok_users self [date] = Ok [users])
    ∧ Forall (λ r,
        Users_Under_25 r
        = (users * (if str_eq (market_type (config self)) "mature"
                    then 0.45 else 0.60))%float
        ∧ Users_25_34 r = (users * 0.30)%float
        ∧ Users_Over_35 r
          = (users * (1 - (if str_eq (market_type (config self)) "mature"
                           then 0.45 else 0.60) - 0.30))%float) df.
Proof.
  exists (adjusted_row (config self)
            <$> simulated_rows (config self)
                  (date_range (start_year self) (end_year self))),
    (single_date_users (config self)).
  split; [apply generate_tiktok_data_eq|]. split.
  { intros date. by rewrite simulate_tiktok_users_single, users_at_position_0. }
  apply Forall_fmap, Forall_lookup. intros k r Hk.
  apply simulated_rows_lookup in Hk as (year & g & _ & -> & _).
  cbn [Users_Under_25 Users_25_34 Users_Over_35 adjusted_row simulated_row
       compose].
  unfold young_at, adult_at, older_at, young_ratio.
  by rewrite users_at_position_0.
Qed.

(** X5.  For every analyzer, the active users of every record of the
    final table are the same single-date number of users times the
    activity rate of the market, itself multiplied by 1.15 in the records
    of 2020 and 2021. *)
Theorem active_users_are_constant_but_for_2020_2021 (self : t) :
  ∃ df users,
    generate_tiktok_data self = Ok df
    ∧ (∀ date, _simulate_tiktok_users self [date] = Ok [users])
    ∧ Forall (λ r,
        Active_Users r
        = (let active :=
             users * (if str_eq (market_type (config self)) "mature" then 0.75
                      else if str_eq (market_type (config self)) "booming"
                      then 0.85 else 0.70) in
           if in_window 2020 2021 (Year r) then active * 1.15 else active)%float)
        df.
Proof.
  exists (adjusted_row (config self)
            <$> simulated_rows (config self)
                  (date_range (start_year self) (end_year self))),
    (single_date_users (config self)).
  split; [apply generate_tiktok_data_eq|]. split.
  { intros date. by rewrite simulate_tiktok_users_single, users_at_position_0. }
  apply Forall_fmap, Forall_lookup. intros k r Hk.
  apply simulated_rows_lookup in Hk as (year & g & _ & -> & _).
  cbn [Active_Users Year adjusted_row simulated_row compose].
  unfold active_at, active_rate. by rewrite users_at_position_0.
Qed.

(** ** Signs *)

Lemma nonneg_leb (x : float) : nonneg x = true → (0 <=? x)%float = true.
Proof.
  unfold nonneg. rewrite FloatAxioms.leb_spec.
  change (Prim2SF 0) with (S754_zero false). unfold SFleb.
  by destruct (Prim2SF x) as [s|[]| |[] m e].
Qed.

Lemma binary_round_aux_nonneg (mx ex : Z) (lx : location) :
  (0 ≤ mx)%Z → SFnonneg (binary_round_aux prec emax false mx ex lx) = true.
Proof.
  intros Hmx. unfold binary_round_aux.
  pose proof (shr_fexp_nonneg mx ex lx Hmx) as H1.
  destruct (shr_fexp prec emax mx ex lx) as [mrs' e']. cbn [fst] in H1.
  pose proof (shr_fexp_nonneg _ e' loc_Exact
                (round_nearest_even_nonneg _ (loc_of_shr_record mrs') H1)) as H2.
  destruct (shr_fexp prec emax _ e' loc_Exact) as [mrs'' e'']. cbn [fst] in H2.
  destruct (shr_m mrs''); [done| |lia].
  by destruct (_ <=? _)%Z.
Qed.

Lemma binary_normalize_nonneg (m e : Z) :
  (0 ≤ m)%Z → SFnonneg (binary_normalize prec emax m e false) = true.
Proof.
  destruct m as [|p|p]; [done| |lia]. intros _. cbn. unfold binary_round.
  destruct (shl_align _ _ _) as [mz ez]. by apply binary_round_aux_nonneg.
Qed.

Lemma mul_nonneg (a x : float) :
  finite_positive a = true → nonneg x = true → nonneg (a * x) = true.
Proof.
  unfold finite_positive, nonneg. rewrite FloatAxioms.mul_spec.
  unfold SF64mul, SFmul.
  destruct (Prim2SF a) as [| | |[] ma ea]; [done..|]. intros _.
  destruct (Prim2SF x) as [sx|[]| |[] mx ex]; try done.
  intros _. by apply binary_round_aux_nonneg.
Qed.

Lemma one_add_nonneg (x : float) : nonneg x = true → nonneg (1 + x) = true.
Proof.
  unfold nonneg. rewrite FloatAxioms.add_spec.
  change (Prim2SF 1) with (S754_finite false 4503599627370496 (-52)).
  unfold SF64add, SFadd.
  destruct (Prim2SF x) as [sx|[]| |[] mx ex]; try done.
  intros _. apply binary_normalize_nonneg. cbn [cond_Zopp]. lia.
Qed.

Lemma float_of_index_nonneg (i : nat) : nonneg (float_of_index i) = true.
Proof.
  unfold float_of_index, nonneg. rewrite FloatAxioms.of_uint63_spec.
  apply binary_normalize_nonneg, Uint63.to_Z_bounded.
Qed.

Lemma py_min_nonneg (a b : float) :
  nonneg a = true → nonneg b = true → nonneg (py_min a b) = true.
Proof. intros Ha Hb. unfold py_min. by destruct (b <? a)%float. Qed.

Lemma configured_profile_signs :
  Forall (λ item, profile_signs item.2 = true) configs_items.
Proof.
  unfold configs_items.
  repeat first [apply List.Forall_nil | apply List.Forall_cons];
    vm_compute; reflexivity.
Qed.

Lemma population_at_nonneg (cfg : Config) (k : nat) :
  finite_positive (population_base cfg) = true →
  finite_positive (population_growth_rate cfg) = true →
  nonneg (population_at cfg k) = true.
Proof.
  intros Hbase Hrate. unfold population_at.
  apply mul_nonneg, one_add_nonneg, mul_nonneg, float_of_index_nonneg; done.
Qed.

Lemma users_at_nonneg (cfg : Config) (k : nat) (year : Z) :
  finite_positive (tiktok_users_base cfg) = true →
  finite_positive (users_growth_rate cfg year) = true →
  nonneg (max_users cfg) = true →
  nonneg (users_at cfg k year) = true.
Proof.
  intros Hbase Hrate Hmax. unfold users_at.
  apply py_min_nonneg; [|done].
  apply mul_nonneg, one_add_nonneg, mul_nonneg, float_of_index_nonneg; done.
Qed.

Lemma signed_profile_rows (cfg : Config) (dates : list Z) :
  profile_signs cfg = true →
  base_is_fixpoint cfg →
  Forall (λ r, ∀ c, (0 <=? cell c r)%float = true)
    (adjusted_row cfg <$> simulated_rows cfg dates).
Proof.
  unfold profile_signs. rewrite !andb_true_iff, forallb_forall.
  intros ((((Hpop & Hbase) & Hprate) & Hmax) & Hyears) [Husers Hrate].
  apply Forall_fmap, Forall_lookup. intros k r Hk.
  apply simulated_rows_lookup in Hk as (year & g & _ & -> & ->).
  specialize (Hyears (clamp_year year)
                (proj1 (list_elem_of_In _ _) (clamp_year_range year))).
  apply andb_prop in Hyears as [Hurate Hcells].
  rewrite <- users_growth_rate_clamp in Hurate.
  assert (adjusted_growth_rate cfg
            (simulated_row cfg k year
               (nth k (growth_rates_from cfg (tiktok_users_base cfg) dates)
                  0%float))
          = 0%float) as Hzero.
  { apply adjusted_growth_rate_zero. cbn [User_Growth_Rate simulated_row].
    by apply nth_Forall_default, growth_rates_from_fixpoint. }
  intros c.
  destruct (decide (c ∈ year_columns)) as [Hc|Hc].
  - rewrite (year_cell_clamp cfg k year _ c Hc).
    rewrite forallb_forall in Hcells.
    by apply Hcells, list_elem_of_In.
  - destruct c;
      try (exfalso; apply Hc, (bool_decide_eq_true_1 _); vm_compute;
           reflexivity);
      cbn [cell adjusted_row simulated_row Population TikTok_Users
           User_Growth_Rate compose].
    + by apply nonneg_leb, population_at_nonneg.
    + by apply nonneg_leb, users_at_nonneg.
    + by rewrite Hzero.
Qed.

(** X6.  For every country name and every year range, no cell of the
    final table is negative: [0 <= cell] holds for the seventeen float
    columns of every record. *)
Theorem no_cell_is_negative (name : string) :
  ∃ cfg,
    _get_country_config name = Ok cfg
    ∧ tiktok_data name = generate_tiktok_data (mkSelf name 2016 2025 cfg)
    ∧ ∀ first_year last_year, ∃ df,
        generate_tiktok_data (mkSelf name first_year last_year cfg) = Ok df
        ∧ Forall (λ r, ∀ c, (0 <=? cell c r)%float = true) df.
Proof.
  destruct (resolved_config_ind
              (λ cfg, profile_signs cfg = true ∧ base_is_fixpoint cfg)) with name
    as (cfg & Hcfg & Hsigns & Hbase).
  { apply Forall_and.
    split; [apply configured_profile_signs|apply configured_base_is_fixpoint]. }
  exists cfg. split; [done|]. split; [by apply tiktok_data_resolved|].
  intros first_year last_year. eexists.
  split; [apply generate_tiktok_data_eq|].
  by apply signed_profile_rows.
Qed.

Lemma engagement_at_monotone (cfg : Config) (y1 y2 : Z) :
  (y1 ≤ y2)%Z → (engagement_at cfg y1 <=? engagement_at cfg y2)%float = true.
Proof.
  intros Hle. unfold engagement_at.
  destruct (str_eq (market_type cfg) "booming");
    repeat case_match; try lia; vm_compute; reflexivity.
Qed.

Lemma virality_at_monotone (cfg : Config) (y1 y2 : Z) :
  (y1 ≤ y2)%Z → (virality_at cfg y1 <=? virality_at cfg y2)%float = true.
Proof.
  intros Hle. unfold virality_at.
  destruct (py_in "music" (specialties cfg) || py_in "dance" (specialties cfg));
    repeat case_match; try lia; vm_compute; reflexivity.
Qed.

(** X7.  For every analyzer, the engagement rate and the virality score
    never decrease from a record of the final table to a later one. *)
Theorem engagement_and_virality_never_decrease (self : t) :
  ∃ df, generate_tiktok_data self = Ok df
    ∧ ∀ i j r1 r2, (i ≤ j)%nat → df !! i = Some r1 → df !! j = Some r2 →
        (Engagement_Rate r1 <=? Engagement_Rate r2)%float = true
        ∧ (Virality_Score r1 <=? Virality_Score r2)%float = true.
Proof.
  eexists. split; [apply generate_tiktok_data_eq|].
  intros i j r1 r2 Hij. rewrite !list_lookup_fmap.
  destruct (simulated_rows _ _ !! i) as [s1|] eqn:H1; [|done].
  destruct (simulated_rows _ _ !! j) as [s2|] eqn:H2; [|done].
  intros [= <-] [= <-].
  apply simulated_rows_lookup in H1 as (y1 & g1 & Hy1 & -> & _).
  apply simulated_rows_lookup in H2 as (y2 & g2 & Hy2 & -> & _).
  apply lookup_seqZ in Hy1 as [-> _], Hy2 as [-> _].
  cbn [Engagement_Rate Virality_Score adjusted_row simulated_row].
  split; [apply engagement_at_monotone|apply virality_at_monotone]; lia.
Qed.

(** ** From one year to the next, on the range of [main] *)

Lemma all_steps_lookup {A} (q : A → A → bool) (l : list A) (k : nat) (x y : A) :
  all_steps q l = true → l !! k = Some x → l !! S k = Some y → q x y = true.
Proof.
  revert k. induction l as [|a l IH]; intros k Hall Hx Hy; [done|].
  destruct l as [|b l]; [done|].
  cbn [all_steps] in Hall. apply andb_prop in Hall as [Hab Hall].
  destruct k as [|k]; [by injection Hx as ->; injection Hy as ->|].
  by apply (IH k).
Qed.

Lemma configured_steps :
  Forall (λ item, all_steps (users_step item.2) (main_rows item.2) = true
                  ∧ all_steps population_step (main_rows item.2) = true)
    configs_items.
Proof.
  unfold configs_items.
  repeat first [apply List.Forall_nil | apply List.Forall_cons];
    split; vm_compute; reflexivity.
Qed.

(** X8.  For every country name, in the table that [main] generates the
    number of TikTok users never decreases from a record to the next,
    except from 2019 to 2020 in a mature market, where the growth rate
    falls from 0.35 to 0.08 per position. *)
Theorem users_decrease_only_after_2019_in_mature_markets (name : string) :
  ∃ cfg df,
    _get_country_config name = Ok cfg
    ∧ tiktok_data name = Ok df
    ∧ ∀ k r1 r2, df !! k = Some r1 → df !! S k = Some r2 →
        (TikTok_Users r1 <=? TikTok_Users r2)%float = true
        ∨ (market_type cfg = "mature" ∧ Year r1 = 2019%Z).
Proof.
  destruct (resolved_config_ind
              (λ cfg, all_steps (users_step cfg) (main_rows cfg) = true
                      ∧ all_steps population_step (main_rows cfg) = true)
              configured_steps name)
    as (cfg & Hcfg & Husers & _).
  exists cfg, (main_rows cfg). split; [done|]. split.
  { rewrite (tiktok_data_resolved name cfg Hcfg).
    apply generate_tiktok_data_eq. }
  intros k r1 r2 H1 H2.
  pose proof (all_steps_lookup _ _ k r1 r2 Husers H1 H2) as Hstep.
  unfold users_step in Hstep.
  apply orb_prop in Hstep as [Hle|[Hm Hy]%andb_prop]; [by left|right].
  split; [by apply bool_decide_eq_true_1 in Hm|by apply Z.eqb_eq].
Qed.

(** X9.  For every country name, in the table that [main] generates the
    population grows strictly from each record to the next. *)
Theorem population_grows_every_year (name : string) :
  ∃ df,
    tiktok_data name = Ok df
    ∧ ∀ k r1 r2, df !! k = Some r1 → df !! S k = Some r2 →
        (Population r1 <? Population r2)%float = true.
Proof.
  destruct (resolved_config_ind
              (λ cfg, all_steps (users_step cfg) (main_rows cfg) = true
                      ∧ all_steps population_step (main_rows cfg) = true)
              configured_steps name)
    as (cfg & Hcfg & _ & Hpop).
  exists (main_rows cfg). split.
  { rewrite (tiktok_data_resolved name cfg Hcfg).
    apply generate_tiktok_data_eq. }
  intros k r1 r2 H1 H2. by apply (all_steps_lookup _ _ k r1 r2 Hpop).
Qed.

(** ** The international comparison *)

Lemma config_for_country_base (country : string) :
  ∃ base,
    dict_getitem (_get_country_config_for_country country) "tiktok_users_base"
    = Ok base
    ∧ (country ∈ major_countries →
         ∃ cfg, configs !! country = Some cfg
                ∧ base = tiktok_users_base cfg)
    ∧ (country ∉ major_countries → base = 50000000%float).
Proof.
  unfold _get_country_config_for_country, dict_get.
  destruct (configs_for_country !! country) as [d|] eqn:Hd; cbn [default].
  - apply (elem_of_list_to_map_2 (M := gmap string)) in Hd.
    unfold configs_for_country_items in Hd.
    repeat (apply elem_of_cons in Hd as [[= -> ->]|Hd];
            [eexists; split; [reflexivity|];
             split; [intros _; eexists; split; reflexivity
                    |intros Hn; exfalso; apply Hn, (bool_decide_eq_true_1 _);
                     vm_compute; reflexivity]|]).
    by apply elem_of_nil in Hd.
  - eexists. split; [reflexivity|]. split; [|done].
    intros Hmajor. exfalso.
    apply (not_elem_of_list_to_map (M := gmap string)) in Hd. by apply Hd.
Qed.

(** X10.  The lookup of the comparison panel never fails to give a user
    base: for the five major countries it is the base of their profile in
    the main table, and for every other name it is 50000000. *)
Theorem comparison_base_agrees_with_profile (country : string) :
  ∃ base cfg,
    dict_getitem (_get_country_config_for_country country) "tiktok_users_base"
    = Ok base
    ∧ _get_country_config country = Ok cfg
    ∧ (country ∈ major_countries → base = tiktok_users_base cfg)
    ∧ (country ∉ major_countries → base = 50000000%float).
Proof.
  destruct (config_for_country_base country) as (base & Hbase & Hmajor & Hother).
  exists base, (default default_config (configs !! country)).
  split; [done|]. split; [apply get_country_config_eq|]. split; [|done].
  intros Hin. destruct (Hmajor Hin) as (cfg & Hcfg & ->). by rewrite Hcfg.
Qed.

Lemma comparison_loop_eq (self : t) (years : list Z) (todo : list string)
    (ax : list Line) :
  comparison_loop self years todo ax
  = Ok (ax ++ (comparison_line years
                 <$> filter (λ c, c ≠ country self) todo)).
Proof.
  revert ax. induction todo as [|c todo IH]; intros ax.
  { cbn. by rewrite app_nil_r. }
  cbn [comparison_loop]. unfold str_eq.
  destruct (decide (c = country self)) as [->|Hc].
  - rewrite bool_decide_eq_true_2 by done. rewrite IH.
    by rewrite filter_cons_False by (by intros ?).
  - rewrite bool_decide_eq_false_2 by done.
    destruct (config_for_country_base c) as (base & Hbase & _).
    rewrite (for_enumerate_ok _
               (λ i _, (base * (1 + 0.2 * float_of_index i))%float))
      by (intros i year; by rewrite Hbase).
    cbn [mbind result_bind]. rewrite IH, filter_cons_True by done.
    rewrite <- app_assoc. cbn [fmap list_fmap app]. do 4 f_equal.
    unfold comparison_line. f_equal. apply imap_ext. intros i year _.
    unfold dict_getitem in Hbase.
    by destruct (_ !! "tiktok_users_base") as [b|]; [injection Hbase as ->|].
Qed.

(** X11.  [_plot_international_comparison] never raises and keeps the
    lines already on the panel.  It adds one line for each major country
    other than the analysed one, in the order of the list, then the line
    of the analysed country with its [TikTok_Users] column; no label is
    drawn twice, and every line has one point per record of the table. *)
Theorem international_comparison_lines (self : t) (df : DataFrame)
    (ax : list Line) :
  ∃ lines,
    _plot_international_comparison self df ax = Ok (ax ++ lines)
    ∧ label <$> lines
      = filter (λ c, c ≠ country self) major_countries ++ [country self]
    ∧ NoDup (label <$> lines)
    ∧ Forall (λ l, xdata l = Year <$> df ∧ length (ydata l) = length df) lines
    ∧ last lines
      = Some (mkLine (country self) (Year <$> df) (TikTok_Users <$> df)).
Proof.
  exists ((comparison_line (Year <$> df)
             <$> filter (λ c, c ≠ country self) major_countries)
          ++ [mkLine (country self) (Year <$> df) (TikTok_Users <$> df)]).
  assert (label <$> (comparison_line (Year <$> df)
                       <$> filter (λ c, c ≠ country self) major_countries)
          = filter (λ c, c ≠ country self) major_countries) as Hlabels.
  { rewrite <- list_fmap_compose. apply list_fmap_id. }
  split.
  { unfold _plot_international_comparison. rewrite comparison_loop_eq.
    cbn [mbind result_bind]. by rewrite <- app_assoc. }
  split; [by rewrite fmap_app, Hlabels|].
  split.
  { rewrite fmap_app, Hlabels. apply NoDup_app. split; [|split].
    - apply NoDup_filter. unfold major_countries.
      apply (bool_decide_eq_true_1 _). vm_compute. reflexivity.
    - intros c [Hc _]%list_elem_of_filter [->|[]%elem_of_nil]%elem_of_cons.
      by apply Hc.
    - apply NoDup_singleton. }
  split.
  { apply Forall_app. split.
    - apply Forall_fmap, Forall_forall. intros c _. cbn.
      by rewrite length_imap, length_fmap.
    - apply Forall_singleton. cbn. by rewrite length_fmap. }
  apply last_snoc.
Qed.

(** ** main *)

Lemma countries_are_configured :
  Forall (λ pays, pays ≠ "default"%string
                  ∧ is_Some (configs !! pays)) countries.
Proof.
  unfold countries.
  repeat first [apply List.Forall_nil | apply List.Forall_cons];
    (split; [discriminate|eexists; reflexivity]).
Qed.

Lemma pays_selectionne_cases (typed : option Z) :
  ∃ pays, pays_selectionne typed = Ok pays
    ∧ match typed with
      | Some choix =>
          if (1 <=? choix)%Z && (choix <=? 15)%Z
          then countries !! Z.to_nat (choix - 1) = Some pays
          else pays = "United States"%string
      | None => pays = "United States"%string
      end.
Proof.
  destruct typed as [choix|]; [|eexists; split; reflexivity].
  unfold pays_selectionne, int_of_input. cbn [mbind result_bind].
  change (Z.of_nat (length countries)) with 15%Z.
  destruct (Z.ltb_spec choix 1), (Z.ltb_spec 15 choix),
    (Z.leb_spec 1 choix), (Z.leb_spec choix 15); try lia; cbn [orb andb];
    try (eexists; split; reflexivity).
  assert ((choix - 1 <? 0)%Z = false) as Hneg by lia.
  unfold list_getitem. cbv zeta. rewrite Hneg. cbv iota. rewrite Hneg.
  destruct (countries !! Z.to_nat (choix - 1)) as [pays|] eqn:Hpays;
    [eexists; split; reflexivity|].
  apply lookup_ge_None in Hpays. cbn in Hpays. lia.
Qed.

(** X12.  [main] never raises before the export.  A choice between 1
    and 15 selects the country of that rank, any other answer (not a
    number, or out of range) selects "United States".  The selected country
    always has its own entry in the configuration table, so that the
    default profile is never the one analysed, and the exported table has
    the ten years 2016 .. 2025. *)
Theorem main_selects_a_configured_country (typed : option Z) :
  ∃ pays cfg data,
    pays_selectionne typed = Ok pays
    ∧ pays ∈ countries
    ∧ match typed with
      | Some choix =>
          if (1 <=? choix)%Z && (choix <=? 15)%Z
          then countries !! Z.to_nat (choix - 1) = Some pays
          else pays = "United States"%string
      | None => pays = "United States"%string
      end
    ∧ pays ≠ "default"%string
    ∧ configs !! pays = Some cfg
    ∧ _get_country_config pays = Ok cfg
    ∧ main_export typed
      = Ok ((pays ++ "_tiktok_data_2016_2025.csv")%string, data)
    ∧ Year <$> data = seqZ 2016 10.
Proof.
  destruct (pays_selectionne_cases typed) as (pays & Hsel & Hcase).
  assert (pays ∈ countries) as Hin.
  { destruct typed as [choix|]; [|subst; set_solver].
    destruct (_ && _); [by eapply list_elem_of_lookup_2|subst; set_solver]. }
  destruct (proj1 (Forall_forall _ _) countries_are_configured pays Hin)
    as [Hnot [cfg Hcfg]].
  pose proof (generate_tiktok_data_eq (mkSelf pays 2016 2025 cfg)) as Hdata.
  cbn [config start_year end_year] in Hdata.
  pose proof (simulated_rows_years cfg (date_range 2016 2025)) as Hyears.
  exists pays, cfg,
    (adjusted_row cfg <$> simulated_rows cfg (date_range 2016 2025)).
  assert (_get_country_config pays = Ok cfg) as Hget
    by by rewrite get_country_config_eq, Hcfg.
  repeat (split; [done|]). split; [|done].
  unfold main_export. rewrite Hsel. cbn [mbind result_bind].
  rewrite (tiktok_data_resolved pays cfg Hget), Hdata. done.
Qed.

(** ** The growth rate, for any profile *)

(** The rate of a number of users against itself is 0, unless that number
    is plus infinity. *)
Lemma rate_against_itself (u : float) :
  u ≠ infinity →
  (if 0 <? u then (u - u) / u else 0)%float = 0%float.
Proof.
  intros Hu. destruct (0 <? u)%float eqn:Hpos; [|done].
  rewrite FloatAxioms.ltb_spec in Hpos.
  change (Prim2SF 0) with (S754_zero false) in Hpos.
  apply Prim2SF_inj.
  rewrite FloatAxioms.div_spec, FloatAxioms.sub_spec.
  change (Prim2SF 0) with (S754_zero false).
  destruct (Prim2SF u) as [s|[]| |[] m e] eqn:Hsf; try done.
  - exfalso. apply Hu. rewrite <- (SF2Prim_Prim2SF u), Hsf. reflexivity.
  - unfold SF64div, SF64sub, SFsub, SFdiv, shl_align.
    rewrite Z.min_id, !Z.sub_diag. reflexivity.
Qed.

(** X13.  For every analyzer whose single-date number of users is not
    plus infinity, the growth rate is 0 in every record of the final table
    after the first one: the stage compares that number with itself. *)
Theorem growth_rate_is_zero_after_the_first_record (self : t) (users : float) :
  _simulate_tiktok_users self [start_year self] = Ok [users] →
  users ≠ infinity →
  ∃ df, generate_tiktok_data self = Ok df
    ∧ ∀ k r, df !! S k = Some r → User_Growth_Rate r = 0%float.
Proof.
  rewrite simulate_tiktok_users_single, users_at_position_0.
  intros [= <-] Hfinite.
  eexists. split; [apply generate_tiktok_data_eq|].
  intros k r. rewrite list_lookup_fmap.
  destruct (simulated_rows _ _ !! S k) as [s|] eqn:Hk; [|done].
  intros [= <-].
  apply simulated_rows_lookup in Hk as (year & g & Hyear & -> & ->).
  apply adjusted_growth_rate_zero. cbn [User_Growth_Rate simulated_row].
  destruct (date_range (start_year self) (end_year self)) as [|date dates];
    [done|].
  cbn [growth_rates_from nth]. rewrite users_at_position_0.
  apply nth_Forall_default, growth_rates_from_fixpoint.
  - apply users_at_position_0.
  - by apply rate_against_itself.
Qed.

Lemma growth_rate_is_zero_after_the_first_record_witness :
  ∃ df, generate_tiktok_data
          (mkSelf "United States" 2016 2025
             (mkConfig 331000000 100000000 "mature"
                ["entertainment"; "influencers"; "business"; "ads"; "music"]))
        = Ok df
    ∧ ∀ k r, df !! S k = Some r → User_Growth_Rate r = 0%float.
Proof.
  apply (growth_rate_is_zero_after_the_first_record
           (mkSelf "United States" 2016 2025
              (mkConfig 331000000 100000000 "mature"
                 ["entertainment"; "influencers"; "business"; "ads"; "music"]))
           100000000%float).
  - vm_compute. reflexivity.
  - discriminate.
Defined.
